(** * SomnoSearch: the FHIR object creator ([src/object_creator.py])

    A shallow embedding of the class [ObjectCreator] and of the parts of the
    Python runtime, of [re], of pandas and of fhirclient that its methods
    touch, followed by the properties of the row-to-resource mapping.

    Conventions of the embedding:
    - a Python call either returns or raises: [result A];
    - the two methods that log through [logging.warn] live in [Log], a
      state-and-error monad over the list of messages emitted so far;
    - what a call reads from outside its arguments is gathered in [World]:
      the answer of [strftime('%z', gmtime())] and the binding of the module
      global [ResourceName];
    - a [pd.Series] row is a finite map from column names to cell values;
    - text is [string], each character one code point below 256. *)

From Stdlib Require Import ZArith Ascii String DecimalString Lia.
From stdpp Require Import base option list gmap strings.

Local Open Scope Z_scope.

(* ====================================================================== *)
(** ** The Python runtime                                                  *)
(* ====================================================================== *)

Module Py.

(** Exceptions raised by the code under study. [AttributeError] and
    [NameError] carry the name that was looked up, [Exception] its
    message. *)
Inductive exn : Type :=
| AttributeError (name : string)
| NameError (name : string)
| KeyError (key : string)
| Exception (msg : string)
| AssertionError
| IndexError
| ValueError
| TypeError.

Inductive result (A : Type) : Type :=
| Ok (a : A)
| Raise (e : exn).
Arguments Ok {A} a.
Arguments Raise {A} e.

Definition bind {A B} (r : result A) (k : A → result B) : result B :=
  match r with
  | Ok a => k a
  | Raise e => Raise e
  end.

Definition is_ok {A} (r : result A) : bool :=
  match r with Ok _ => true | Raise _ => false end.

(** The cells of a row as pandas reads them from a CSV file: text or
    integers. *)
Inductive value : Type :=
| VStr (s : string)
| VInt (z : Z).

Global Instance value_eq_dec : EqDecision value.
Proof. solve_decision. Defined.

(** [str(v)] *)
Definition str (v : value) : string :=
  match v with
  | VStr s => s
  | VInt z => NilZero.string_of_int (Z.to_int z)
  end.

(** [assert c] *)
Definition assert (c : bool) : result unit :=
  if c then Ok tt else Raise AssertionError.

(** [s.split(sep, maxsplit=-1)] for a one-character separator: every
    occurrence splits, empty fragments are kept. *)
Fixpoint split (sep : ascii) (s : string) : list string :=
  match s with
  | EmptyString => [EmptyString]
  | String c s' =>
      if decide (c = sep) then EmptyString :: split sep s'
      else match split sep s' with
           | [] => [String c EmptyString]
           | w :: ws => String c w :: ws
           end
  end.

(** [l[i]] for a non-negative literal index. *)
Definition index {A} (l : list A) (i : nat) : result A :=
  match l !! i with
  | Some a => Ok a
  | None => Raise IndexError
  end.

(** Slice bounds: a negative bound counts from the end, and every bound
    is clipped to the length. *)
Definition clip (len i : Z) : Z :=
  if i <? 0 then Z.max 0 (len + i) else Z.min i len.

(** [s[lo:hi]]; an omitted bound is [None]. *)
Definition slice (lo hi : option Z) (s : string) : string :=
  let len := Z.of_nat (String.length s) in
  let a := match lo with Some i => clip len i | None => 0 end in
  let b := match hi with Some i => clip len i | None => len end in
  String.substring (Z.to_nat a) (Z.to_nat (b - a)) s.

(** Iterating over a [str] yields its characters as one-character
    strings. *)
Fixpoint iter_str (s : string) : list string :=
  match s with
  | EmptyString => []
  | String c s' => String c EmptyString :: iter_str s'
  end.

(** Unpacking an iterable into [n] targets: the number of items must be
    exactly [n]. *)
Definition unpack {A} (n : nat) (items : list A) : result (list A) :=
  if decide (length items = n) then Ok items else Raise ValueError.

(** [int(s)] on a string of decimal digits. *)
Definition digit_val (c : ascii) : option Z :=
  let n := Z.of_nat (nat_of_ascii c) in
  if (48 <=? n) && (n <=? 57) then Some (n - 48) else None.

Fixpoint int_go (acc : Z) (s : string) : result Z :=
  match s with
  | EmptyString => Ok acc
  | String c s' =>
      match digit_val c with
      | Some d => int_go (10 * acc + d) s'
      | None => Raise ValueError
      end
  end.

Definition int (s : string) : result Z :=
  match s with
  | EmptyString => Raise ValueError
  | _ => int_go 0 s
  end.

(** The state of the root logger, as far as this module changes it: the
    messages passed to [warn], oldest first. *)
Definition Log (A : Type) : Type := list string → result A * list string.

Definition ret {A} (a : A) : Log A := fun log => (Ok a, log).
Definition throw {A} (e : exn) : Log A := fun log => (Raise e, log).
Definition lift {A} (r : result A) : Log A := fun log => (r, log).
Definition warn (msg : string) : Log unit := fun log => (Ok tt, log ++ [msg]).
Definition lbind {A B} (m : Log A) (k : A → Log B) : Log B :=
  fun log =>
    match m log with
    | (Ok a, log') => k a log'
    | (Raise e, log') => (Raise e, log')
    end.

(** [for x in xs: body], the loop threading the variables it updates *)
Fixpoint for_in {A S} (xs : list A) (body : A → S → Log S) (s : S) : Log S :=
  match xs with
  | [] => ret s
  | x :: xs' => lbind (body x s) (for_in xs' body)
  end.

(** What a call can observe besides its arguments. *)
Record EnumMember : Type := { member_value : string }.

Record World : Type := {
  (** the text [strftime('%z', gmtime())] evaluates to on this system at
      the time of the call; the two evaluations within one call give the
      same text *)
  strftime_z_gmtime : string;
  (** [ResourceName.PATIENT], looked up in the globals of the module.
      The enumeration is declared in [etl_process], which the module
      imports under [TYPE_CHECKING] only: the name is bound at run time
      only when the importing program binds it, and [None] stands for
      the unbound name. *)
  ResourceName_PATIENT : option EnumMember;
}.

End Py.

Global Instance result_ret : MRet Py.result := @Py.Ok.
Global Instance result_bind : MBind Py.result := fun A B k r => Py.bind r k.
Global Instance Log_ret : MRet Py.Log := @Py.ret.
Global Instance Log_bind : MBind Py.Log := fun A B k m => Py.lbind m k.

(** A [dict] literal keeps its keys in insertion order. *)
Module Dict.

Definition t (V : Type) : Type := list (string * V).

(** iterating a dict yields its keys *)
Definition keys {V} (d : t V) : list string := d.*1.

Fixpoint get {V} (d : t V) (k : string) : option V :=
  match d with
  | [] => None
  | (k', v) :: d' => if decide (k' = k) then Some v else get d' k
  end.

(** [k in d.keys()] *)
Definition contains {V} (d : t V) (k : string) : bool :=
  bool_decide (is_Some (get d k)).

(** [d[k]] *)
Definition getitem {V} (d : t V) (k : string) : Py.result V :=
  match get d k with
  | Some v => Py.Ok v
  | None => Py.Raise (Py.KeyError k)
  end.

End Dict.

(* ====================================================================== *)
(** ** [re]: the fragment the date pattern is written in                   *)
(* ====================================================================== *)

Module Re.

(** A compiled pattern is a sequence of pieces; pattern texts are
    concatenated with [+] before [re.compile], pieces with [++]. *)
Inductive piece : Type :=
| Digits (name : string) (n : nat)  (** [(?P<name>\d{n})] *)
| Lit (c : ascii).                  (** an escaped character, [\.] *)

Definition pattern : Type := list piece.

(** [\d] on code points below 256 *)
Definition is_digit (c : ascii) : bool := bool_decide (is_Some (Py.digit_val c)).

(** [\d{n}] at the front of [s]: the digits and the rest *)
Fixpoint take_digits (n : nat) (s : string) : option (string * string) :=
  match n, s with
  | O, _ => Some (EmptyString, s)
  | S n', String c s' =>
      if is_digit c then
        '(ds, rest) ← take_digits n' s'; Some (String c ds, rest)
      else None
  | S _, EmptyString => None
  end.

(** A match object, as far as [group] reads it. *)
Definition Match : Type := Dict.t string.

(** [pattern.match(s)]: the pattern has to match at the first character
    of [s]; what follows the match is not looked at. *)
Fixpoint match_ (p : pattern) (s : string) : option Match :=
  match p with
  | [] => Some []
  | Digits name n :: p' =>
      '(ds, rest) ← take_digits n s;
      m ← match_ p' rest;
      Some ((name, ds) :: m)
  | Lit c :: p' =>
      match s with
      | String c' rest => if decide (c' = c) then match_ p' rest else None
      | EmptyString => None
      end
  end.

(** [m.group(name)] *)
Definition group (m : Match) (name : string) : Py.result string :=
  match Dict.get m name with
  | Some ds => Py.Ok ds
  | None => Py.Raise Py.IndexError
  end.

End Re.

(* ====================================================================== *)
(** ** pandas: rows and timestamps                                         *)
(* ====================================================================== *)

Module Pd.

(** A row of a data frame: column name to cell. *)
Abbreviation Series := (gmap string Py.value).

(** [row.name]: a column of that name, else [AttributeError]. None of the
    names the creator reads is an attribute of [pd.Series] itself. *)
Definition getattr (row : Series) (name : string) : Py.result Py.value :=
  match row !! name with
  | Some v => Py.Ok v
  | None => Py.Raise (Py.AttributeError name)
  end.

(** [row[key]] *)
Definition getitem (row : Series) (key : string) : Py.result Py.value :=
  match row !! key with
  | Some v => Py.Ok v
  | None => Py.Raise (Py.KeyError key)
  end.

Record Timestamp : Type := { year : Z; month : Z; day : Z }.

Definition is_leap (y : Z) : bool :=
  ((y mod 4 =? 0) && negb (y mod 100 =? 0)) || (y mod 400 =? 0).

Definition days_in_month (y m : Z) : Z :=
  if m =? 2 then (if is_leap y then 29 else 28)
  else if (m =? 4) || (m =? 6) || (m =? 9) || (m =? 11) then 30
  else 31.

(** a date of the proleptic Gregorian calendar *)
Definition is_calendar_date (y m d : Z) : bool :=
  (1 <=? m) && (m <=? 12) && (1 <=? d) && (d <=? days_in_month y m).

(** [(y1, m1, d1) <= (y2, m2, d2)] *)
Definition date_leb (a b : Z * Z * Z) : bool :=
  let '(y1, m1, d1) := a in
  let '(y2, m2, d2) := b in
  (y1 <? y2) || ((y1 =? y2) && ((m1 <? m2) || ((m1 =? m2) && (d1 <=? d2)))).

(** A [Timestamp] counts nanoseconds in 64 bits: midnight is
    representable from 1677-09-22 to 2262-04-11. *)
Definition in_bounds (y m d : Z) : bool :=
  date_leb (1677, 9, 22) (y, m, d) && date_leb (y, m, d) (2262, 4, 11).

(** [pd.Timestamp(day=d, month=m, year=y)]: a [ValueError] for what is
    not a date, and its subclass [OutOfBoundsDatetime] for a date out of
    range. *)
Definition Timestamp_new (d m y : Z) : Py.result Timestamp :=
  if is_calendar_date y m d && in_bounds y m d
  then Py.Ok {| year := y; month := m; day := d |}
  else Py.Raise Py.ValueError.

Definition digit_char (d : Z) : ascii := ascii_of_nat (Z.to_nat (48 + d)).

(** the last [w] decimal digits of [n], in front of [acc] *)
Fixpoint zfill_go (w : nat) (n : Z) (acc : string) : string :=
  match w with
  | O => acc
  | S w' => zfill_go w' (n / 10) (String (digit_char (n mod 10)) acc)
  end.

(** [n] in [w] decimal digits with leading zeros, for [0 <= n < 10^w] *)
Definition zfill (w : nat) (n : Z) : string := zfill_go w n EmptyString.

(** [ts.strftime('%Y-%m-%d')]; the year of a [Timestamp] has four
    digits. *)
Definition strftime_Y_m_d (ts : Timestamp) : string :=
  zfill 4 (year ts) +:+ "-" +:+ zfill 2 (month ts) +:+ "-" +:+ zfill 2 (day ts).

End Pd.

(* ====================================================================== *)
(** ** fhirclient: the resource classes, with the attributes that are set  *)
(* ====================================================================== *)

Module Fhir.

(** [FHIRDate(text)] keeps the text it was built from ([origval]), which
    is what it serialises to; building one never raises. *)
Record FHIRDate : Type := { origval : string }.

Record Identifier : Type := { identifier_value : Py.value }.

Record FHIRReference : Type := {
  reference_type : string;
  reference_reference : string;
}.

(** An attribute that some path leaves unset is an [option], [None]
    being the class default. *)
Record Coding : Type := {
  coding_system : string;
  coding_version : string;
  coding_code : Py.value;
  coding_display : option string;
}.

Record CodeableConcept : Type := { concept_coding : list Coding }.

Record Period : Type := { period_start : FHIRDate; period_end : FHIRDate }.

Record HumanName : Type := {
  name_given : list Py.value;
  name_family : Py.value;
}.

Record Address : Type := {
  address_line : list Py.value;
  address_postalCode : string;
  address_city : Py.value;
}.

Record Quantity : Type := {
  quantity_value : Py.value;
  quantity_unit : string;
}.

Record Patient : Type := {
  patient_identifier : list Identifier;
  patient_name : list HumanName;
  patient_gender : string;
  patient_birthDate : FHIRDate;
  patient_address : list Address;
}.

Record Encounter : Type := {
  encounter_identifier : list Identifier;
  encounter_resource_type : string;
  encounter_status : string;
  encounter_period : Period;
  encounter_subject : FHIRReference;
}.

Record Condition : Type := {
  condition_identifier : list Identifier;
  condition_subject : FHIRReference;
  condition_encounter : option FHIRReference;
  condition_code : CodeableConcept;
  condition_category : string;
}.

(** [observation.code] receives the [Coding] itself: the name [code] is
    rebound to [coding] before the assignment. *)
Record Observation : Type := {
  observation_status : string;
  observation_code : Coding;
  observation_subject : FHIRReference;
  observation_encounter : option FHIRReference;
  observation_valueQuantity : Quantity;
}.

Record Procedure : Type := {
  procedure_identifier : list Identifier;
  procedure_status : string;
  procedure_subject : FHIRReference;
  procedure_encounter : option FHIRReference;
  procedure_code : CodeableConcept;
}.

End Fhir.

(* ====================================================================== *)
(** ** [class ObjectCreator]                                               *)
(* ====================================================================== *)

Module ObjectCreator.
Import Fhir.

(** the double-quote character that the f-strings put around a name *)
Definition quote : string := String "034"%char EmptyString.

(** the no-break space, code point 160, which the second key of the
    table has between its first two words *)
Definition nbsp : string := String "160"%char EmptyString.

Definition _observation_loinc_mapping_dict : Dict.t (string * string * string) :=
  [ ("Apnoe Index (n/h)",       ("90562-0", "{events}/h", "Apnea index"));
    ("Hypnopnoe" +:+ nbsp +:+ "Index (n/h)",
                                ("90561-2", "{events}/h", "Hypopnea index"));
    ("RERA Index (n/h)",        ("90565-3", "{events}/h", "Respiratory effort-related arousal index"));
    ("AHI",                     ("69990-0", "{events}/h", "Apnea hypopnea index 24 hour"));
    ("RDI",                     ("90566-1", "{events}/h", "Respiratory disturbance index"));
    ("RDI / AHI (n/h)",         ("",        "{events}/h", ""));
    ("Schlaflatenz (min)",      ("",        "min",        ""));
    ("Alter (Jahre)",           ("30525-0", "a",          "Age"));
    ("Arousal Index (n/h)",     ("",        "{events}/h", ""));
    ("Schnarchzeit (min)",      ("",        "min",        ""));
    ("totale Schlafzeit (min)", ("93832-4", "min",        "Sleep duration"));
    ("Schnarchen Total (%TST)", ("",        "%",          ""));
    ("PLM Index",               ("",        "",           "")) ].

(** the items of a table entry, as unpacking sees them *)
Definition tuple_items (e : string * string * string) : list string :=
  let '(code, unit, display) := e in [code; unit; display].

(* ---------------------------- Helper methods ------------------------ *)

Definition _parse_date_time (w : Py.World) (datetime_str : Py.value)
  : Py.result FHIRDate :=
  let s := Py.str datetime_str in
  case_date ← Py.index (Py.split " " s) 0;
  case_time ← (t ← Py.index (Py.split " " s) 1; Py.index (Py.split "." t) 0);
  case_ms ← (t ← Py.index (Py.split " " s) 1;
             f ← Py.index (Py.split "." t) 1;
             mret (Py.slice None (Some 3) f));
  let case_tz :=
    Py.slice None (Some 3) (Py.strftime_z_gmtime w) +:+ ":" +:+
    Py.slice (Some 1) (Some (-2)) (Py.strftime_z_gmtime w) in
  mret {| origval := case_date +:+ "T" +:+ case_time +:+ "." +:+ case_ms +:+ case_tz |}.

Definition DOT : Re.pattern := [Re.Lit "."].

Definition DATE_PATTERN : Re.pattern :=
  [Re.Digits "day" 2] ++ DOT ++ [Re.Digits "month" 2] ++ DOT ++ [Re.Digits "year" 4].

Definition _parse_date (date_str : Py.value) : Py.result FHIRDate :=
  s ← match date_str with Py.VStr s => Py.Ok s | _ => Py.Raise Py.TypeError end;
  match Re.match_ DATE_PATTERN s with
  | None => Py.Raise Py.AssertionError
  | Some m =>
      day ← Re.group m "day" ≫= Py.int;
      month ← Re.group m "month" ≫= Py.int;
      year ← Re.group m "year" ≫= Py.int;
      ts ← Pd.Timestamp_new day month year;
      mret {| origval := Pd.strftime_Y_m_d ts |}
  end.

Definition _map_gender (gender : Py.value) : Py.result string :=
  if bool_decide (gender = Py.VStr "m") then mret "male"
  else if bool_decide (gender = Py.VStr "f") || bool_decide (gender = Py.VStr "w")
  then mret "female"
  else Py.Raise (Py.Exception ("Unknown gender code " +:+ Py.str gender)).

Definition _construct_reference (resource_name : Py.EnumMember) (ref_id : Py.value)
  : FHIRReference :=
  let resource_str := Py.member_value resource_name in
  {| reference_type := resource_str;
     reference_reference := resource_str +:+ "/" +:+ Py.str ref_id |}.

Definition _construct_identifier (identifier : Py.value) : list Identifier :=
  [ {| identifier_value := identifier |} ].

Definition _resolve_observation_column (column_name : string)
  : Py.Log (string * string * string) :=
  if negb (Dict.contains _observation_loinc_mapping_dict column_name) then
    Py.throw (Py.Exception ("Invalid column name: " +:+ quote +:+ column_name +:+ quote))
  else
    targets ← Py.lift (Dict.getitem _observation_loinc_mapping_dict column_name
                       ≫= fun e => Py.unpack 2 (tuple_items e));
    match targets with
    | [code; unit] =>
        (if decide (code = "")
         then Py.warn ("Code is unknown for column name: " +:+ quote +:+ column_name +:+ quote)
         else mret tt);;
        Py.lift (Dict.getitem _observation_loinc_mapping_dict column_name)
    | _ => Py.throw Py.ValueError
    end.

(* ------------------------ Object create methods --------------------- *)

(** [ResourceName.PATIENT] *)
Definition ResourceName_PATIENT (w : Py.World) : Py.result Py.EnumMember :=
  match Py.ResourceName_PATIENT w with
  | Some member => Py.Ok member
  | None => Py.Raise (Py.NameError "ResourceName")
  end.

Definition create_encounter (w : Py.World) (case_row : Pd.Series)
    (subject_ref_id : Py.value) : Py.result Encounter :=
  start ← Pd.getattr case_row "admission" ≫= _parse_date_time w;
  end_ ← Pd.getattr case_row "discharge" ≫= _parse_date_time w;
  let period := {| period_start := start; period_end := end_ |} in
  id ← Pd.getattr case_row "id";
  patient ← ResourceName_PATIENT w;
  mret {| encounter_identifier := _construct_identifier id;
          encounter_resource_type := "Encounter";
          encounter_status := "finished";
          encounter_period := period;
          encounter_subject := _construct_reference patient subject_ref_id |}.

Definition create_patient (patient_row : Pd.Series) : Py.result Patient :=
  first_name ← Pd.getattr patient_row "first_name";
  last_name ← Pd.getattr patient_row "last_name";
  let name := {| name_given := [first_name]; name_family := last_name |} in
  street ← Pd.getattr patient_row "street";
  zip ← Pd.getattr patient_row "zip";
  city ← Pd.getattr patient_row "city";
  let address := {| address_line := [street];
                    address_postalCode := Py.str zip;
                    address_city := city |} in
  id ← Pd.getattr patient_row "id";
  gender ← Pd.getattr patient_row "sex" ≫= _map_gender;
  birthDate ← Pd.getattr patient_row "date_of_birth" ≫= _parse_date;
  mret {| patient_identifier := _construct_identifier id;
          patient_name := [name];
          patient_gender := gender;
          patient_birthDate := birthDate;
          patient_address := [address] |}.

(** [coding.display: diagnose_row.type] is an annotation of the target
    [coding.display]: nothing is assigned, and the annotation is not
    evaluated, so that the row is not asked for [type]. *)
Definition create_condition (w : Py.World) (diagnose_row : Pd.Series)
    (subject_ref_id encounter_ref_id : Py.value) : Py.result Condition :=
  sytem ← Pd.getattr diagnose_row "sytem";
  Py.assert (bool_decide (sytem = Py.VStr "ICD-10-GM"));;
  version ← Pd.getattr diagnose_row "version";
  Py.assert (bool_decide (version = Py.VStr "2020"));;
  code ← Pd.getattr diagnose_row "code";
  let coding := {| coding_system := "http://fhir.de/CodeSystem/dimdi/icd-10-gm";
                   coding_version := "2020";
                   coding_code := code;
                   coding_display := None |} in
  id ← Pd.getattr diagnose_row "id";
  patient ← ResourceName_PATIENT w;
  mret {| condition_identifier := _construct_identifier id;
          condition_subject := _construct_reference patient subject_ref_id;
          condition_encounter := None;
          condition_code := {| concept_coding := [coding] |};
          condition_category := "encounter-diagnosis" |}.

(** The loop of [create_observation] iterates over the dictionary itself,
    which yields its keys; each key is unpacked into the targets
    [column_name, (obs_loinc_code, unit, display)] of the loop header. *)
Definition unpack_loop_targets (item : string)
  : Py.result (string * (string * string * string)) :=
  outer ← Py.unpack 2 (Py.iter_str item);
  match outer with
  | [column_name; rest] =>
      inner ← Py.unpack 3 (Py.iter_str rest);
      match inner with
      | [obs_loinc_code; unit; display] =>
          mret (column_name, (obs_loinc_code, unit, display))
      | _ => Py.Raise Py.ValueError
      end
  | _ => Py.Raise Py.ValueError
  end.

(** one round of the loop *)
Definition create_observation_body (w : Py.World) (observation_row : Pd.Series)
    (subject_ref_id : Py.value) (item : string) (observation_list : list Observation)
  : Py.Log (list Observation) :=
  '(column_name, (obs_loinc_code, unit, display)) ← Py.lift (unpack_loop_targets item);
  (if decide (obs_loinc_code = "")
   then Py.warn ("Code is unknown for column name: " +:+ quote +:+ column_name +:+ quote)
   else mret tt);;
  let coding := {| coding_system := "http://loinc.org";
                   coding_version := "2.69";
                   coding_code := Py.VStr obs_loinc_code;
                   coding_display := Some display |} in
  value ← Py.lift (Pd.getitem observation_row column_name);
  let quantity := {| quantity_value := value; quantity_unit := unit |} in
  patient ← Py.lift (ResourceName_PATIENT w);
  mret (observation_list ++
        [ {| observation_status := "final";
             observation_code := coding;
             observation_subject := _construct_reference patient subject_ref_id;
             observation_encounter := None;
             observation_valueQuantity := quantity |} ]).

Definition create_observation (w : Py.World) (observation_row : Pd.Series)
    (subject_ref_id : Py.value) : Py.Log (list Observation) :=
  Py.for_in (Dict.keys _observation_loinc_mapping_dict)
    (create_observation_body w observation_row subject_ref_id) [].

Definition create_procedure (w : Py.World) (procedure_row : Pd.Series)
    (subject_ref_id : Py.value) : Py.result Procedure :=
  code_system ← Pd.getattr procedure_row "code_system";
  Py.assert (bool_decide (code_system = Py.VStr "OPS"));;
  code_version ← Pd.getattr procedure_row "code_version";
  Py.assert (bool_decide (code_version = Py.VStr "2020"));;
  code ← Pd.getattr procedure_row "code";
  let coding := {| coding_system := "http://fhir.de/CodeSystem/dimdi/ops";
                   coding_version := "2020";
                   coding_code := code;
                   coding_display := None |} in
  id ← Pd.getattr procedure_row "id";
  patient ← ResourceName_PATIENT w;
  mret {| procedure_identifier := _construct_identifier id;
          procedure_status := "completed";
          procedure_subject := _construct_reference patient subject_ref_id;
          procedure_encounter := None;
          procedure_code := {| concept_coding := [coding] |} |}.

End ObjectCreator.

(* ====================================================================== *)
(** ** Vocabulary of the statements                                        *)
(* ====================================================================== *)

Module Text.

(** [c in s] *)
Fixpoint has (c : ascii) (s : string) : bool :=
  match s with
  | EmptyString => false
  | String c' s' => bool_decide (c' = c) || has c s'
  end.

Fixpoint all_digits (s : string) : bool :=
  match s with
  | EmptyString => true
  | String c s' => Re.is_digit c && all_digits s'
  end.

(** a field of exactly [n] decimal digits *)
Definition is_digits (n : nat) (s : string) : bool :=
  bool_decide (String.length s = n) && all_digits s.

Definition digit (c : ascii) : Z := default 0 (Py.digit_val c).

(** the number a string of digits denotes, read after [acc] *)
Fixpoint number_go (acc : Z) (s : string) : Z :=
  match s with
  | EmptyString => acc
  | String c s' => number_go (10 * acc + digit c) s'
  end.

Definition number (s : string) : Z := number_go 0 s.

(** the text [DD.MM.YYYY] and its normal form [YYYY-MM-DD] *)
Definition dmy (dd mm yyyy : string) : string := dd +:+ "." +:+ mm +:+ "." +:+ yyyy.
Definition iso (dd mm yyyy : string) : string := yyyy +:+ "-" +:+ mm +:+ "-" +:+ dd.

(** [dd], [mm], [yyyy] are digit fields that denote a date of the
    calendar, whether pandas holds it or not *)
Definition is_calendar_text (dd mm yyyy : string) : bool :=
  is_digits 2 dd && is_digits 2 mm && is_digits 4 yyyy &&
  Pd.is_calendar_date (number yyyy) (number mm) (number dd).

(** [dd], [mm], [yyyy] are digit fields that denote a date pandas holds *)
Definition is_date (dd mm yyyy : string) : bool :=
  is_digits 2 dd && is_digits 2 mm && is_digits 4 yyyy &&
  Pd.is_calendar_date (number yyyy) (number mm) (number dd) &&
  Pd.in_bounds (number yyyy) (number mm) (number dd).

(** [s] is a day, a month and a year in digits, dot-separated, and a
    tail *)
Definition date_prefix (s : string) : Prop :=
  ∃ dd mm yyyy rest,
    is_digits 2 dd = true ∧ is_digits 2 mm = true ∧ is_digits 4 yyyy = true ∧
    s = dmy dd mm yyyy +:+ rest.

(** the same, decided on the first ten characters of [s] *)
Definition starts_with_date (s : string) : bool :=
  match s with
  | String d1 (String d2 (String p (String m1 (String m2 (String q
      (String y1 (String y2 (String y3 (String y4 _))))))))) =>
      Re.is_digit d1 && Re.is_digit d2 && bool_decide (p = "."%char) &&
      Re.is_digit m1 && Re.is_digit m2 && bool_decide (q = "."%char) &&
      Re.is_digit y1 && Re.is_digit y2 && Re.is_digit y3 && Re.is_digit y4
  | _ => false
  end.

(** the first three characters of [s], or [s] itself when it is shorter *)
Definition first3 (s : string) : string :=
  match s with
  | String a (String b (String c _)) => String a (String b (String c EmptyString))
  | _ => s
  end.

(** what precedes the first [c] in [s]; all of [s] when there is none *)
Fixpoint before (c : ascii) (s : string) : string :=
  match s with
  | EmptyString => EmptyString
  | String c' s' => if decide (c' = c) then EmptyString else String c' (before c s')
  end.

(** what follows the first [c] in [s], when there is one *)
Fixpoint after (c : ascii) (s : string) : option string :=
  match s with
  | EmptyString => None
  | String c' s' => if decide (c' = c) then Some s' else after c s'
  end.

(** the suffix [_parse_date_time] builds from the answer of [strftime] *)
Definition case_tz (w : Py.World) : string :=
  Py.slice None (Some 3) (Py.strftime_z_gmtime w) +:+ ":" +:+
  Py.slice (Some 1) (Some (-2)) (Py.strftime_z_gmtime w).

(** the resources the builders put together from their parts *)
Definition patient_of (first_name last_name street zip city id : Py.value)
    (gender birth : string) : Fhir.Patient :=
  {| Fhir.patient_identifier := [ {| Fhir.identifier_value := id |} ];
     Fhir.patient_name :=
       [ {| Fhir.name_given := [first_name]; Fhir.name_family := last_name |} ];
     Fhir.patient_gender := gender;
     Fhir.patient_birthDate := {| Fhir.origval := birth |};
     Fhir.patient_address :=
       [ {| Fhir.address_line := [street];
            Fhir.address_postalCode := Py.str zip;
            Fhir.address_city := city |} ] |}.

Definition encounter_of (id : Py.value) (start end_ : Fhir.FHIRDate)
    (patient : Py.EnumMember) (subject_ref_id : Py.value) : Fhir.Encounter :=
  {| Fhir.encounter_identifier := [ {| Fhir.identifier_value := id |} ];
     Fhir.encounter_resource_type := "Encounter";
     Fhir.encounter_status := "finished";
     Fhir.encounter_period := {| Fhir.period_start := start; Fhir.period_end := end_ |};
     Fhir.encounter_subject :=
       {| Fhir.reference_type := Py.member_value patient;
          Fhir.reference_reference :=
            Py.member_value patient +:+ "/" +:+ Py.str subject_ref_id |} |}.

Definition procedure_of (id code : Py.value) (patient : Py.EnumMember)
    (subject_ref_id : Py.value) : Fhir.Procedure :=
  {| Fhir.procedure_identifier := [ {| Fhir.identifier_value := id |} ];
     Fhir.procedure_status := "completed";
     Fhir.procedure_subject :=
       {| Fhir.reference_type := Py.member_value patient;
          Fhir.reference_reference :=
            Py.member_value patient +:+ "/" +:+ Py.str subject_ref_id |};
     Fhir.procedure_encounter := None;
     Fhir.procedure_code :=
       {| Fhir.concept_coding :=
            [ {| Fhir.coding_system := "http://fhir.de/CodeSystem/dimdi/ops";
                 Fhir.coding_version := "2020";
                 Fhir.coding_code := code;
                 Fhir.coding_display := None |} ] |} |}.

(** the condition that [create_condition] builds from its parts *)
Definition condition_of (id code : Py.value) (patient : Py.EnumMember)
    (subject_ref_id : Py.value) : Fhir.Condition :=
  {| Fhir.condition_identifier := ObjectCreator._construct_identifier id;
     Fhir.condition_subject := ObjectCreator._construct_reference patient subject_ref_id;
     Fhir.condition_encounter := None;
     Fhir.condition_code :=
       {| Fhir.concept_coding :=
            [ {| Fhir.coding_system := "http://fhir.de/CodeSystem/dimdi/icd-10-gm";
                 Fhir.coding_version := "2020";
                 Fhir.coding_code := code;
                 Fhir.coding_display := None |} ] |};
     Fhir.condition_category := "encounter-diagnosis" |}.

End Text.

(* ====================================================================== *)
(** ** Sample worlds and rows                                              *)
(* ====================================================================== *)

Module Sample.

(** Modelled from the spec: the member [PATIENT] of the enumeration
    [ResourceName], which [etl_process] declares; a reference reads
    [<ResourceType>/<id>], so that the value of the member is the resource
    type [Patient]. *)
Definition Patient : Py.EnumMember := {| Py.member_value := "Patient" |}.

(** a system that answers [+0000], the driver having bound [ResourceName] *)
Definition world_utc : Py.World :=
  {| Py.strftime_z_gmtime := "+0000"; Py.ResourceName_PATIENT := Some Patient |}.

(** a system five and a half hours east of Greenwich *)
Definition world_0530 : Py.World :=
  {| Py.strftime_z_gmtime := "+0530"; Py.ResourceName_PATIENT := Some Patient |}.

(** the module as it is loaded on its own *)
Definition world_unbound : Py.World :=
  {| Py.strftime_z_gmtime := "+0000"; Py.ResourceName_PATIENT := None |}.

Definition patient_row : Pd.Series :=
  list_to_map
    [ ("id", Py.VStr "P1"); ("first_name", Py.VStr "Anna");
      ("last_name", Py.VStr "Muster"); ("sex", Py.VStr "w");
      ("date_of_birth", Py.VStr "01.01.1980"); ("street", Py.VStr "Main St");
      ("zip", Py.VInt 12345); ("city", Py.VStr "Berlin") ].

Definition case_row : Pd.Series :=
  list_to_map
    [ ("id", Py.VStr "E1");
      ("admission", Py.VStr "2021-03-04 10:15:30.1234");
      ("discharge", Py.VStr "2021-03-05 08:00:00.000") ].

(** a diagnosis with the columns [system] and [version] *)
Definition diagnose_row : Pd.Series :=
  list_to_map
    [ ("id", Py.VStr "D1"); ("system", Py.VStr "ICD-10-GM");
      ("version", Py.VStr "2020"); ("code", Py.VStr "G47.31");
      ("type", Py.VStr "Hauptdiagnose") ].

(** the same diagnosis under a column named [sytem] *)
Definition diagnose_row_sytem : Pd.Series :=
  list_to_map
    [ ("id", Py.VStr "D1"); ("sytem", Py.VStr "ICD-10-GM");
      ("version", Py.VStr "2020"); ("code", Py.VStr "G47.31");
      ("type", Py.VStr "Hauptdiagnose") ].

(** a row of another terminology that also carries [sytem] *)
Definition diagnose_row_other_system : Pd.Series :=
  <["system" := Py.VStr "SNOMED-CT"]> diagnose_row_sytem.

Definition procedure_row : Pd.Series :=
  list_to_map
    [ ("id", Py.VStr "O1"); ("code_system", Py.VStr "OPS");
      ("code_version", Py.VStr "2020"); ("code", Py.VStr "1-790") ].

(** a value for each of the thirteen columns of the table *)
Definition observation_row : Pd.Series :=
  list_to_map
    ((λ column_name, (column_name, Py.VInt 7)) <$>
       Dict.keys ObjectCreator._observation_loinc_mapping_dict).

(** a patient whose sex is not one of the three codes, and who has no
    date of birth *)
Definition patient_row_unknown_sex : Pd.Series :=
  list_to_map
    [ ("id", Py.VStr "P2"); ("first_name", Py.VStr "Kim");
      ("last_name", Py.VStr "Muster"); ("sex", Py.VStr "d");
      ("street", Py.VStr "Main St"); ("zip", Py.VInt 1067);
      ("city", Py.VStr "Dresden") ].

(** a procedure whose version has been read as a number *)
Definition procedure_row_int_version : Pd.Series :=
  <["code_version" := Py.VInt 2020]> procedure_row.

(** a diagnosis under [sytem] whose version has been read as a number *)
Definition diagnose_row_int_version : Pd.Series :=
  <["version" := Py.VInt 2020]> diagnose_row_sytem.

End Sample.

(* ====================================================================== *)
(** ** Tactics                                                             *)
(* ====================================================================== *)

(** one step of sequencing: a returned value is passed on, a raised
    exception ends the call *)
Ltac py_step := cbn [mbind result_bind Py.bind mret result_ret].

(* ====================================================================== *)
(** ** Strings                                                             *)
(* ====================================================================== *)

Section strings.
Implicit Types (s t : string) (c : ascii).

Lemma app_cons c s t : String c s +:+ t = String c (s +:+ t).
Proof. reflexivity. Qed.

Lemma app_empty_l t : EmptyString +:+ t = t.
Proof. reflexivity. Qed.

Lemma app_empty_r s : s +:+ EmptyString = s.
Proof. induction s as [|c s IH]; [done|]. by rewrite app_cons, IH. Qed.

Lemma app_assoc' s t u : (s +:+ t) +:+ u = s +:+ t +:+ u.
Proof. induction s as [|c s IH]; [done|]. by rewrite !app_cons, IH. Qed.

Lemma length_app s t : String.length (s +:+ t) = (String.length s + String.length t)%nat.
Proof. induction s as [|c s IH]; [done|]. rewrite app_cons. simpl. by rewrite IH. Qed.

End strings.

(* ====================================================================== *)
(** ** Digit fields: reading them with [int], writing them with [strftime] *)
(* ====================================================================== *)

Section digits.
Implicit Types (s ds : string) (c : ascii).

Lemma digit_val_Some c d :
  Py.digit_val c = Some d → 0 ≤ d < 10 ∧ Pd.digit_char d = c.
Proof.
  unfold Py.digit_val, Pd.digit_char.
  destruct (_ && _) eqn:Hc; [|done]. intros [= <-].
  apply andb_true_iff in Hc as [?%Z.leb_le ?%Z.leb_le].
  split; [lia|].
  replace (48 + (Z.of_nat (nat_of_ascii c) - 48)) with (Z.of_nat (nat_of_ascii c)) by lia.
  rewrite Nat2Z.id.
  apply ascii_nat_embedding.
Qed.

Lemma is_digit_val c :
  Re.is_digit c = true → Py.digit_val c = Some (Text.digit c).
Proof.
  unfold Re.is_digit, Text.digit. intros [d Hd]%bool_decide_eq_true.
  by rewrite Hd.
Qed.

Lemma int_go_digits ds acc :
  Text.all_digits ds = true → Py.int_go acc ds = Py.Ok (Text.number_go acc ds).
Proof.
  revert acc. induction ds as [|c ds IH]; intros acc Hds; [done|].
  simpl in Hds. apply andb_true_iff in Hds as [Hc Hds].
  simpl. rewrite (is_digit_val c Hc). by apply IH.
Qed.

Lemma int_digits n ds :
  Text.is_digits (S n) ds = true → Py.int ds = Py.Ok (Text.number ds).
Proof.
  unfold Text.is_digits. intros [Hlen Hds]%andb_true_iff.
  apply bool_decide_eq_true in Hlen.
  destruct ds as [|c ds]; [done|]. by apply int_go_digits.
Qed.

Lemma zfill_go_number ds n k acc :
  Text.all_digits ds = true →
  Pd.zfill_go (String.length ds + k) (Text.number_go n ds) acc
  = Pd.zfill_go k n (ds +:+ acc).
Proof.
  revert n k. induction ds as [|c ds IH]; intros n k Hds; [done|].
  simpl in Hds. apply andb_true_iff in Hds as [Hc Hds].
  destruct (digit_val_Some c _ (is_digit_val c Hc)) as [Hd Hch].
  simpl String.length. replace (S (String.length ds) + k)%nat with (String.length ds + S k)%nat by lia.
  simpl Text.number_go. rewrite IH by done. simpl.
  replace ((10 * n + Text.digit c) `div` 10) with n by (apply (Z.div_unique _ 10 n (Text.digit c)); lia).
  replace ((10 * n + Text.digit c) `mod` 10) with (Text.digit c) by (apply (Z.mod_unique _ 10 n (Text.digit c)); lia).
  by rewrite Hch.
Qed.

Lemma zfill_number n ds :
  Text.is_digits n ds = true → Pd.zfill n (Text.number ds) = ds.
Proof.
  unfold Text.is_digits. intros [Hlen Hds]%andb_true_iff.
  apply bool_decide_eq_true in Hlen. subst n.
  unfold Pd.zfill, Text.number.
  replace (String.length ds) with (String.length ds + 0)%nat by lia.
  rewrite zfill_go_number by done. simpl. apply app_empty_r.
Qed.
End digits.

(* ====================================================================== *)
(** ** The date pattern                                                    *)
(* ====================================================================== *)

Section date_pattern.
Implicit Types (s ds rest : string) (c : ascii) (n : nat).

Lemma take_digits_app n ds rest :
  Text.is_digits n ds = true → Re.take_digits n (ds +:+ rest) = Some (ds, rest).
Proof.
  unfold Text.is_digits. intros [Hlen Hds]%andb_true_iff.
  apply bool_decide_eq_true in Hlen. subst n.
  induction ds as [|c ds IH]; [by destruct rest|].
  simpl in Hds. apply andb_true_iff in Hds as [Hc Hds].
  rewrite app_cons. simpl. by rewrite Hc, IH.
Qed.

Lemma take_digits_Some n s ds rest :
  Re.take_digits n s = Some (ds, rest) →
  Text.is_digits n ds = true ∧ s = ds +:+ rest.
Proof.
  revert s ds. induction n as [|n IH]; intros s ds.
  { destruct s; intros [= <- <-]; done. }
  destruct s as [|c s]; [done|]. simpl.
  destruct (Re.is_digit c) eqn:Hc; [|done].
  destruct (Re.take_digits n s) as [[ds' rest']|] eqn:Htake; [|done].
  intros [= <- <-]. destruct (IH _ _ Htake) as [Hds ->]. split; [|done].
  unfold Text.is_digits in *. apply andb_true_iff in Hds as [Hlen Hds].
  apply bool_decide_eq_true in Hlen.
  apply andb_true_iff. split; [apply bool_decide_eq_true; simpl; lia|].
  simpl. by rewrite Hc.
Qed.

Lemma match_Digits name n p ds rest :
  Text.is_digits n ds = true →
  Re.match_ (Re.Digits name n :: p) (ds +:+ rest)
  = m ← Re.match_ p rest; Some ((name, ds) :: m).
Proof. intros Hds. simpl. by rewrite (take_digits_app _ _ _ Hds). Qed.

Lemma match_Lit c p rest :
  Re.match_ (Re.Lit c :: p) (String c rest) = Re.match_ p rest.
Proof. simpl. by rewrite decide_True. Qed.

Lemma match_Digits_Some name n p s m :
  Re.match_ (Re.Digits name n :: p) s = Some m →
  ∃ ds rest m', Text.is_digits n ds = true ∧ s = ds +:+ rest ∧
                Re.match_ p rest = Some m' ∧ m = (name, ds) :: m'.
Proof.
  simpl. destruct (Re.take_digits n s) as [[ds rest]|] eqn:Htake; [|done].
  simpl. destruct (Re.match_ p rest) as [m'|] eqn:Hm; [|done].
  intros [= <-]. apply take_digits_Some in Htake as [Hds ->].
  by exists ds, rest, m'.
Qed.

Lemma match_Lit_Some c p s m :
  Re.match_ (Re.Lit c :: p) s = Some m →
  ∃ rest, s = String c rest ∧ Re.match_ p rest = Some m.
Proof.
  simpl. destruct s as [|c' rest]; [done|].
  destruct (decide (c' = c)) as [->|]; [|done]. by exists rest.
Qed.

Lemma DATE_PATTERN_pieces :
  ObjectCreator.DATE_PATTERN
  = [Re.Digits "day" 2; Re.Lit "."; Re.Digits "month" 2; Re.Lit ".";
     Re.Digits "year" 4].
Proof. reflexivity. Qed.

Lemma match_date dd mm yyyy rest :
  Text.is_digits 2 dd = true → Text.is_digits 2 mm = true →
  Text.is_digits 4 yyyy = true →
  Re.match_ ObjectCreator.DATE_PATTERN (Text.dmy dd mm yyyy +:+ rest)
  = Some [("day", dd); ("month", mm); ("year", yyyy)].
Proof.
  intros Hd Hm Hy. rewrite DATE_PATTERN_pieces. unfold Text.dmy.
  rewrite !app_assoc', !app_cons, !app_empty_l.
  rewrite (match_Digits _ _ _ _ _ Hd), match_Lit.
  rewrite (match_Digits _ _ _ _ _ Hm), match_Lit.
  by rewrite (match_Digits _ _ _ _ _ Hy).
Qed.

Lemma match_date_Some s m :
  Re.match_ ObjectCreator.DATE_PATTERN s = Some m → Text.date_prefix s.
Proof.
  rewrite DATE_PATTERN_pieces.
  intros (dd & r1 & m1 & Hd & -> & H1 & _)%match_Digits_Some.
  apply match_Lit_Some in H1 as (r2 & -> & H1).
  apply match_Digits_Some in H1 as (mm & r3 & m2 & Hm & -> & H1 & _).
  apply match_Lit_Some in H1 as (r4 & -> & H1).
  apply match_Digits_Some in H1 as (yyyy & r5 & m3 & Hy & -> & _ & _).
  exists dd, mm, yyyy, r5. repeat split; try done.
  unfold Text.dmy. by rewrite !app_assoc', !app_cons, !app_empty_l.
Qed.

Lemma date_prefix_starts s : Text.date_prefix s → Text.starts_with_date s = true.
Proof.
  intros (dd & mm & yyyy & rest & Hd & Hm & Hy & ->).
  unfold Text.is_digits in *.
  apply andb_true_iff in Hd as [Hd1%bool_decide_eq_true Hd].
  apply andb_true_iff in Hm as [Hm1%bool_decide_eq_true Hm].
  apply andb_true_iff in Hy as [Hy1%bool_decide_eq_true Hy].
  destruct dd as [|d1 [|d2 [|? ?]]]; try done.
  destruct mm as [|m1 [|m2 [|? ?]]]; try done.
  destruct yyyy as [|y1 [|y2 [|y3 [|y4 [|? ?]]]]]; try done.
  simpl in Hd, Hm, Hy. rewrite !andb_true_r in Hd, Hm, Hy.
  apply andb_true_iff in Hd as [? ?]. apply andb_true_iff in Hm as [? ?].
  apply andb_true_iff in Hy as [? [? [? ?]%andb_true_iff]%andb_true_iff].
  unfold Text.dmy. rewrite !app_assoc', !app_cons, !app_empty_l.
  cbn [Text.starts_with_date]. rewrite !bool_decide_eq_true_2 by done.
  repeat (apply andb_true_iff; split); done.
Qed.

Lemma match_date_None s :
  Text.starts_with_date s = false → Re.match_ ObjectCreator.DATE_PATTERN s = None.
Proof.
  intros Hs. destruct (Re.match_ ObjectCreator.DATE_PATTERN s) as [m|] eqn:Hm; [|done].
  apply match_date_Some, date_prefix_starts in Hm. congruence.
Qed.

(** On a date text, with or without a tail, [_parse_date] returns the
    normal form of the date. *)
Lemma parse_date_tail dd mm yyyy rest :
  Text.is_date dd mm yyyy = true →
  ObjectCreator._parse_date (Py.VStr (Text.dmy dd mm yyyy +:+ rest))
  = Py.Ok {| Fhir.origval := Text.iso dd mm yyyy |}.
Proof.
  unfold Text.is_date.
  intros [[[[Hd Hm]%andb_true_iff Hy]%andb_true_iff Hcal]%andb_true_iff Hin]%andb_true_iff.
  unfold ObjectCreator._parse_date. py_step.
  rewrite match_date by done.
  set (m := [("day", dd); ("month", mm); ("year", yyyy)]).
  assert (Re.group m "day" = Py.Ok dd) as -> by reflexivity.
  assert (Re.group m "month" = Py.Ok mm) as -> by reflexivity.
  assert (Re.group m "year" = Py.Ok yyyy) as -> by reflexivity.
  py_step.
  rewrite (int_digits _ _ Hd), (int_digits _ _ Hm), (int_digits _ _ Hy).
  py_step.
  unfold Pd.Timestamp_new. rewrite Hcal, Hin.
  cbn [andb mbind result_bind Py.bind mret result_ret]. unfold Pd.strftime_Y_m_d.
  cbn [Pd.year Pd.month Pd.day].
  by rewrite (zfill_number _ _ Hd), (zfill_number _ _ Hm), (zfill_number _ _ Hy).
Qed.

Lemma parse_date_no_match s :
  Text.starts_with_date s = false →
  ObjectCreator._parse_date (Py.VStr s) = Py.Raise Py.AssertionError.
Proof.
  intros Hs. unfold ObjectCreator._parse_date.
  py_step. by rewrite match_date_None.
Qed.

End date_pattern.

(* ====================================================================== *)
(** ** Splitting and slicing the date-time text                            *)
(* ====================================================================== *)

Section date_time.
Implicit Types (s t : string) (c sep : ascii) (w : Py.World).

Lemma split_no_sep sep s : Text.has sep s = false → Py.split sep s = [s].
Proof.
  induction s as [|c s IH]; [done|]. simpl.
  intros [Hc Hs]%orb_false_iff. apply bool_decide_eq_false in Hc.
  rewrite decide_False by done. by rewrite IH.
Qed.

Lemma split_app sep s t :
  Text.has sep s = false →
  Py.split sep (s +:+ String sep t) = s :: Py.split sep t.
Proof.
  induction s as [|c s IH].
  - intros _. rewrite app_empty_l. simpl. by rewrite decide_True.
  - simpl. intros [Hc Hs]%orb_false_iff. apply bool_decide_eq_false in Hc.
    rewrite ?app_cons. simpl. rewrite decide_False by done. by rewrite IH.
Qed.

Lemma split_has c sep s :
  Text.has c s = false → Forall (λ f, Text.has c f = false) (Py.split sep s).
Proof.
  induction s as [|c' s IH]; [by repeat constructor|].
  simpl. intros [Hc Hs]%orb_false_iff. specialize (IH Hs).
  destruct (decide (c' = sep)); [by constructor|].
  destruct (Py.split sep s) as [|f fs]; [by repeat constructor; simpl; rewrite Hc|].
  apply Forall_cons in IH as [Hf Hfs]. constructor; [|done].
  simpl. by rewrite Hc, Hf.
Qed.

Lemma split_cons sep s : ∃ f fs, Py.split sep s = f :: fs.
Proof.
  destruct s as [|c s]; [by eexists _, _|]. simpl.
  destruct (decide (c = sep)); [by eexists _, _|].
  destruct (Py.split sep s); by eexists _, _.
Qed.

Lemma slice_first_three a b c s :
  Py.slice None (Some 3) (String a (String b (String c s)))
  = String a (String b (String c EmptyString)).
Proof.
  unfold Py.slice, Py.clip. simpl String.length.
  replace (3 <? 0) with false by done.
  rewrite Z.min_l by lia. simpl. by destruct s.
Qed.

(** The suffix built from a five-character answer of [strftime]: sign and
    hours, a colon, and the hours once more. *)
Lemma case_tz_five sign h1 h2 m1 m2 :
  let z := String sign (String h1 (String h2 (String m1 (String m2 EmptyString)))) in
  Py.slice None (Some 3) z +:+ ":" +:+ Py.slice (Some 1) (Some (-2)) z
  = String sign (String h1 (String h2 (String ":" (String h1 (String h2 EmptyString))))).
Proof. reflexivity. Qed.

(** On a text with its date, time of day and fraction in place, the
    date, the time and the first three characters of the fraction are
    kept, and the suffix is built from what [strftime] answers. *)
Lemma parse_date_time_well_formed w date time a b c more :
  let frac := String a (String b (String c more)) in
  Text.has " " date = false → Text.has " " (time +:+ "." +:+ frac) = false →
  Text.has "." time = false → Text.has "." frac = false →
  ObjectCreator._parse_date_time w (Py.VStr (date +:+ " " +:+ time +:+ "." +:+ frac))
  = Py.Ok {| Fhir.origval :=
               date +:+ "T" +:+ time +:+ "." +:+ String a (String b (String c EmptyString))
               +:+ Py.slice None (Some 3) (Py.strftime_z_gmtime w) +:+ ":"
               +:+ Py.slice (Some 1) (Some (-2)) (Py.strftime_z_gmtime w) |}.
Proof.
  intros frac Hdate Hrest Htime Hfrac.
  unfold ObjectCreator._parse_date_time. cbn [Py.str].
  change (" " +:+ time +:+ "." +:+ frac) with (String " " (time +:+ "." +:+ frac)).
  rewrite (split_app _ _ _ Hdate), (split_no_sep _ _ Hrest).
  cbn [Py.index lookup list_lookup mbind result_bind Py.bind].
  change ("." +:+ frac) with (String "." frac).
  rewrite (split_app _ _ _ Htime), (split_no_sep _ _ Hfrac).
  cbn [Py.index lookup list_lookup mbind result_bind Py.bind mret result_ret].
  unfold frac. by rewrite slice_first_three.
Qed.

Lemma parse_date_time_no_space w v :
  Text.has " " (Py.str v) = false →
  ObjectCreator._parse_date_time w v = Py.Raise Py.IndexError.
Proof.
  intros Hs. unfold ObjectCreator._parse_date_time.
  by rewrite (split_no_sep _ _ Hs).
Qed.

Lemma parse_date_time_no_dot w v :
  Text.has "." (Py.str v) = false →
  ObjectCreator._parse_date_time w v = Py.Raise Py.IndexError.
Proof.
  intros Hs. unfold ObjectCreator._parse_date_time.
  pose proof (split_has "." " " _ Hs) as Hall.
  destruct (Py.split " " (Py.str v)) as [|f0 [|f1 fs]]; [done..|].
  apply Forall_cons in Hall as [_ [Hf1 _]%Forall_cons].
  cbn [Py.index lookup list_lookup mbind result_bind Py.bind].
  by rewrite (split_no_sep _ _ Hf1).
Qed.

End date_time.

(* ====================================================================== *)
(** ** Evaluations                                                         *)
(* ====================================================================== *)

Example split_date_time :
  Py.split " " "2021-03-04 10:15:30.1234" = ["2021-03-04"; "10:15:30.1234"].
Proof. reflexivity. Qed.

Example slice_minutes : Py.slice (Some 1) (Some (-2)) "+0530" = "05".
Proof. reflexivity. Qed.

Example map_gender_samples :
  ObjectCreator._map_gender (Py.VStr "m") = Py.Ok "male" ∧
  ObjectCreator._map_gender (Py.VStr "f") = Py.Ok "female" ∧
  ObjectCreator._map_gender (Py.VStr "w") = Py.Ok "female" ∧
  ObjectCreator._map_gender (Py.VStr "x") = Py.Raise (Py.Exception "Unknown gender code x").
Proof. repeat split. Qed.

Example create_patient_sample :
  ObjectCreator.create_patient Sample.patient_row
  = Py.Ok {| Fhir.patient_identifier := [ {| Fhir.identifier_value := Py.VStr "P1" |} ];
             Fhir.patient_name :=
               [ {| Fhir.name_given := [Py.VStr "Anna"]; Fhir.name_family := Py.VStr "Muster" |} ];
             Fhir.patient_gender := "female";
             Fhir.patient_birthDate := {| Fhir.origval := "1980-01-01" |};
             Fhir.patient_address :=
               [ {| Fhir.address_line := [Py.VStr "Main St"];
                    Fhir.address_postalCode := "12345";
                    Fhir.address_city := Py.VStr "Berlin" |} ] |}.
Proof. vm_compute. reflexivity. Qed.

Example create_encounter_sample :
  ObjectCreator.create_encounter Sample.world_utc Sample.case_row (Py.VStr "17")
  = Py.Ok {| Fhir.encounter_identifier := [ {| Fhir.identifier_value := Py.VStr "E1" |} ];
             Fhir.encounter_resource_type := "Encounter";
             Fhir.encounter_status := "finished";
             Fhir.encounter_period :=
               {| Fhir.period_start := {| Fhir.origval := "2021-03-04T10:15:30.123+00:00" |};
                  Fhir.period_end := {| Fhir.origval := "2021-03-05T08:00:00.000+00:00" |} |};
             Fhir.encounter_subject :=
               {| Fhir.reference_type := "Patient";
                  Fhir.reference_reference := "Patient/17" |} |}.
Proof. vm_compute. reflexivity. Qed.

Example create_encounter_unbound :
  ObjectCreator.create_encounter Sample.world_unbound Sample.case_row (Py.VStr "17")
  = Py.Raise (Py.NameError "ResourceName").
Proof. vm_compute. reflexivity. Qed.

Example create_observation_sample :
  Forall (λ column_name, is_Some (Sample.observation_row !! column_name))
    (Dict.keys ObjectCreator._observation_loinc_mapping_dict) ∧
  ObjectCreator.create_observation Sample.world_utc Sample.observation_row (Py.VStr "17") []
  = (Py.Raise Py.ValueError, []).
Proof. split; [|reflexivity]. repeat constructor; by eexists. Qed.

Example resolve_observation_column_samples :
  ObjectCreator._resolve_observation_column "AHI" [] = (Py.Raise Py.ValueError, []) ∧
  ObjectCreator._resolve_observation_column "unknown-col" []
  = (Py.Raise (Py.Exception
       ("Invalid column name: " +:+ ObjectCreator.quote +:+ "unknown-col" +:+ ObjectCreator.quote)),
     []).
Proof. split; reflexivity. Qed.

Example resolve_observation_column_second_key :
  Dict.contains ObjectCreator._observation_loinc_mapping_dict
    ("Hypnopnoe" +:+ ObjectCreator.nbsp +:+ "Index (n/h)") = true ∧
  Dict.contains ObjectCreator._observation_loinc_mapping_dict "Hypnopnoe Index (n/h)" = false ∧
  ObjectCreator._resolve_observation_column "Hypnopnoe Index (n/h)" []
  = (Py.Raise (Py.Exception
       ("Invalid column name: " +:+ ObjectCreator.quote +:+ "Hypnopnoe Index (n/h)" +:+
        ObjectCreator.quote)),
     []).
Proof. repeat split. Qed.

Example parse_date_time_sample :
  ObjectCreator._parse_date_time Sample.world_utc (Py.VStr "2021-03-04 10:15:30.1234")
  = Py.Ok {| Fhir.origval := "2021-03-04T10:15:30.123+00:00" |} ∧
  ObjectCreator._parse_date_time Sample.world_utc (Py.VStr "2021-03-04T10:15:30.1234")
  = Py.Raise Py.IndexError ∧
  ObjectCreator._parse_date_time Sample.world_utc (Py.VStr "2021-03-04 10:15:30")
  = Py.Raise Py.IndexError.
Proof. repeat split. Qed.

Example parse_date_samples :
  ObjectCreator._parse_date (Py.VStr "04.03.2021") = Py.Ok {| Fhir.origval := "2021-03-04" |} ∧
  ObjectCreator._parse_date (Py.VStr "31.02.2021") = Py.Raise Py.ValueError ∧
  ObjectCreator._parse_date (Py.VStr " 04.03.2021") = Py.Raise Py.AssertionError ∧
  ObjectCreator._parse_date (Py.VInt 4032021) = Py.Raise Py.TypeError.
Proof. repeat split. Qed.

Example create_procedure_sample :
  ObjectCreator.create_procedure Sample.world_utc Sample.procedure_row (Py.VStr "17")
  = Py.Ok {| Fhir.procedure_identifier := [ {| Fhir.identifier_value := Py.VStr "O1" |} ];
             Fhir.procedure_status := "completed";
             Fhir.procedure_subject :=
               {| Fhir.reference_type := "Patient";
                  Fhir.reference_reference := "Patient/17" |};
             Fhir.procedure_encounter := None;
             Fhir.procedure_code :=
               {| Fhir.concept_coding :=
                    [ {| Fhir.coding_system := "http://fhir.de/CodeSystem/dimdi/ops";
                         Fhir.coding_version := "2020";
                         Fhir.coding_code := Py.VStr "1-790";
                         Fhir.coding_display := None |} ] |} |}.
Proof. vm_compute. reflexivity. Qed.

(* ====================================================================== *)
(** ** The observation table                                               *)
(* ====================================================================== *)

Section observation.
Import ObjectCreator.
Implicit Types (w : Py.World) (row : Pd.Series) (log : list string).

(** No text can be unpacked into the targets of the loop header: it
    would need two characters, the second of them made of three. *)
Lemma unpack_loop_targets_raises item :
  unpack_loop_targets item = Py.Raise Py.ValueError.
Proof.
  by destruct item as [|a [|b [|c item]]].
Qed.

Lemma create_observation_body_raises w row sid item acc log :
  create_observation_body w row sid item acc log = (Py.Raise Py.ValueError, log).
Proof.
  unfold create_observation_body.
  cbn [mbind Log_bind Py.lbind Py.lift]. by rewrite unpack_loop_targets_raises.
Qed.

(** A loop over a dictionary with at least one key stops in its first
    round. *)
Lemma for_in_first_raises w row sid key keys acc log :
  Py.for_in (key :: keys) (create_observation_body w row sid) acc log
  = (Py.Raise Py.ValueError, log).
Proof. simpl. unfold Py.lbind. by rewrite create_observation_body_raises. Qed.

Lemma create_observation_unpack_fails w row sid log :
  create_observation w row sid log = (Py.Raise Py.ValueError, log).
Proof. apply for_in_first_raises. Qed.

(** A name that is not in the table is refused. *)
Lemma resolve_observation_column_absent column_name log :
  Dict.contains _observation_loinc_mapping_dict column_name = false →
  _resolve_observation_column column_name log
  = (Py.Raise (Py.Exception ("Invalid column name: " +:+ quote +:+ column_name +:+ quote)),
     log).
Proof. intros H. unfold _resolve_observation_column. by rewrite H. Qed.

(** A table entry has three items, the assignment two targets. *)
Lemma resolve_observation_column_present column_name log :
  Dict.contains _observation_loinc_mapping_dict column_name = true →
  _resolve_observation_column column_name log = (Py.Raise Py.ValueError, log).
Proof.
  intros H. unfold _resolve_observation_column. rewrite H. cbn [negb].
  unfold Dict.contains in H. apply bool_decide_eq_true in H as [[[code unit] display] He].
  unfold Dict.getitem. rewrite He. reflexivity.
Qed.

End observation.

(** C1: for a row with a value in each of the thirteen columns
    [create_observation] should return thirteen observations. It returns
    none: for every world, row, subject and log the call raises
    [ValueError] in the first round of its loop, where a key of the table
    is unpacked into the two targets of the loop header; nothing is
    logged. *)
Theorem create_observation_raises :
  ∀ (w : Py.World) (row : Pd.Series) (sid : Py.value) (log : list string),
    ObjectCreator.create_observation w row sid log = (Py.Raise Py.ValueError, log).
Proof. intros. apply create_observation_unpack_fails. Qed.

(** C2: [_resolve_observation_column] should return the entry of a column
    of the table. For each of the thirteen column names, [AHI] among them,
    it raises [ValueError] instead: the entry has three items and is
    unpacked into two targets. *)
Theorem resolve_observation_column_table_raises :
  Forall
    (λ column_name, ∀ log,
       ObjectCreator._resolve_observation_column column_name log
       = (Py.Raise Py.ValueError, log))
    (Dict.keys ObjectCreator._observation_loinc_mapping_dict).
Proof. repeat constructor. Qed.

(** C3: for a column whose stored code is empty the call should return
    the entry and log a warning. It raises [ValueError] before the code is
    looked at, and logs nothing: so for [RDI / AHI (n/h)], and for every
    column of the table with an empty code. *)
Theorem resolve_observation_column_empty_code_raises :
  (∀ log, ObjectCreator._resolve_observation_column "RDI / AHI (n/h)" log
          = (Py.Raise Py.ValueError, log)) ∧
  Forall
    (λ column_name, ∀ log,
       ObjectCreator._resolve_observation_column column_name log
       = (Py.Raise Py.ValueError, log))
    (Dict.keys (filter (λ entry, entry.2.1.1 = EmptyString)
                  ObjectCreator._observation_loinc_mapping_dict)).
Proof. split; [done|]. repeat constructor. Qed.

(* ====================================================================== *)
(** ** Conditions                                                          *)
(* ====================================================================== *)

Section condition.
Import ObjectCreator Fhir.
Implicit Types (w : Py.World) (row : Pd.Series) (sid eid : Py.value).

(** When [create_condition] returns: the columns it has read, and what
    it has built from them. *)
Lemma create_condition_Ok w row sid eid c :
  create_condition w row sid eid = Py.Ok c ↔
  row !! "sytem" = Some (Py.VStr "ICD-10-GM") ∧
  row !! "version" = Some (Py.VStr "2020") ∧
  ∃ code id patient,
    row !! "code" = Some code ∧ row !! "id" = Some id ∧
    Py.ResourceName_PATIENT w = Some patient ∧
    c = Text.condition_of id code patient sid.
Proof.
  unfold create_condition, Pd.getattr, ResourceName_PATIENT, Py.assert.
  split.
  - destruct (row !! "sytem") as [sytem|]; [|done].
    py_step.
    destruct (bool_decide_reflect (sytem = Py.VStr "ICD-10-GM")) as [->|]; [|done].
    py_step.
    destruct (row !! "version") as [version|]; [|done].
    py_step.
    destruct (bool_decide_reflect (version = Py.VStr "2020")) as [->|]; [|done].
    py_step.
    destruct (row !! "code") as [code|]; [|done].
    destruct (row !! "id") as [id|]; [|done].
    destruct (Py.ResourceName_PATIENT w) as [patient|]; [|done].
    py_step.
    intros [= <-]. repeat split. by exists code, id, patient.
  - intros (-> & -> & code & id & patient & -> & -> & -> & ->). reflexivity.
Qed.

(** Two rows that differ in the column [type] at most are treated
    alike. *)
Lemma create_condition_type_unread w row row' sid eid :
  (∀ column, column ≠ "type" → row' !! column = row !! column) →
  create_condition w row' sid eid = create_condition w row sid eid.
Proof.
  intros Hrow. unfold create_condition, Pd.getattr.
  by rewrite !Hrow by done.
Qed.

End condition.

(** C4: with [system] equal to [ICD-10-GM] and [version] equal to [2020]
    [create_condition] should return a condition, and with another
    [system] it should fail its assertion. The column it reads is [sytem]:
    on the sample diagnosis, which has [system] and [version] as wanted,
    it raises [AttributeError] in every world; and a row whose [system] is
    [SNOMED-CT] passes both assertions once it carries [sytem]. *)
Theorem create_condition_system_unread :
  (∀ w sid eid,
     ObjectCreator.create_condition w Sample.diagnose_row sid eid
     = Py.Raise (Py.AttributeError "sytem")) ∧
  (∀ sid eid,
     ObjectCreator.create_condition Sample.world_utc Sample.diagnose_row_other_system sid eid
     = Py.Ok (Text.condition_of (Py.VStr "D1") (Py.VStr "G47.31") Sample.Patient sid)).
Proof. split; intros; vm_compute; reflexivity. Qed.

(** C8: a row that has [system] equal to [ICD-10-GM] and [version] equal
    to [2020] but no column named [sytem] makes [create_condition] raise
    the [AttributeError] of the lookup of [sytem]; it does not return. *)
Theorem create_condition_reads_sytem
    (w : Py.World) (row : Pd.Series) (sid eid : Py.value) :
  row !! "system" = Some (Py.VStr "ICD-10-GM") →
  row !! "version" = Some (Py.VStr "2020") →
  row !! "sytem" = None →
  ObjectCreator.create_condition w row sid eid = Py.Raise (Py.AttributeError "sytem").
Proof.
  intros _ _ Hsytem. unfold ObjectCreator.create_condition, Pd.getattr.
  by rewrite Hsytem.
Qed.

Lemma create_condition_reads_sytem_witness :
  Sample.diagnose_row !! "system" = Some (Py.VStr "ICD-10-GM") ∧
  Sample.diagnose_row !! "version" = Some (Py.VStr "2020") ∧
  Sample.diagnose_row !! "sytem" = None ∧
  ObjectCreator.create_condition Sample.world_utc Sample.diagnose_row (Py.VStr "17") (Py.VStr "3")
  = Py.Raise (Py.AttributeError "sytem").
Proof.
  split; [reflexivity|]. split; [reflexivity|]. split; [reflexivity|].
  apply (create_condition_reads_sytem Sample.world_utc Sample.diagnose_row); reflexivity.
Defined.

(** C9: when [create_condition] returns, the one coding of the condition
    carries the system, the version and the code of the row, and no
    display; and every row that differs from the given one in the column
    [type] at most, lacking it or holding another value, yields the same
    condition. *)
Theorem create_condition_without_display
    (w : Py.World) (row : Pd.Series) (sid eid : Py.value) (c : Fhir.Condition) :
  ObjectCreator.create_condition w row sid eid = Py.Ok c →
  (∃ code,
     row !! "code" = Some code ∧
     Fhir.concept_coding (Fhir.condition_code c)
     = [ {| Fhir.coding_system := "http://fhir.de/CodeSystem/dimdi/icd-10-gm";
            Fhir.coding_version := "2020";
            Fhir.coding_code := code;
            Fhir.coding_display := None |} ]) ∧
  (∀ row' : Pd.Series,
     (∀ column, column ≠ "type" → row' !! column = row !! column) →
     ObjectCreator.create_condition w row' sid eid = Py.Ok c).
Proof.
  intros Hc. split.
  - apply create_condition_Ok in Hc as (_ & _ & code & id & patient & Hcode & _ & _ & ->).
    by exists code.
  - intros row' Hrow. by rewrite (create_condition_type_unread w row row').
Qed.

Lemma create_condition_without_display_witness :
  let c := Text.condition_of (Py.VStr "D1") (Py.VStr "G47.31") Sample.Patient (Py.VStr "17") in
  ObjectCreator.create_condition Sample.world_utc Sample.diagnose_row_sytem
    (Py.VStr "17") (Py.VStr "3") = Py.Ok c ∧
  (∃ code,
     Sample.diagnose_row_sytem !! "code" = Some code ∧
     Fhir.concept_coding (Fhir.condition_code c)
     = [ {| Fhir.coding_system := "http://fhir.de/CodeSystem/dimdi/icd-10-gm";
            Fhir.coding_version := "2020";
            Fhir.coding_code := code;
            Fhir.coding_display := None |} ]) ∧
  (∀ row' : Pd.Series,
     (∀ column, column ≠ "type" → row' !! column = Sample.diagnose_row_sytem !! column) →
     ObjectCreator.create_condition Sample.world_utc row' (Py.VStr "17") (Py.VStr "3")
     = Py.Ok c).
Proof.
  intros c. split; [reflexivity|].
  apply (create_condition_without_display Sample.world_utc Sample.diagnose_row_sytem).
  reflexivity.
Defined.

(* ====================================================================== *)
(** ** Dates and date-times                                                *)
(* ====================================================================== *)

(** C5: on [2021-03-04 10:15:30.1234] the date, the time of day and the
    fraction cut to [123] come out as wanted, but the suffix is not the
    offset as [+HH:MM]: where [strftime('%z', gmtime())] answers [+0530],
    the code appends [+05:05]. Whatever five characters the answer is made
    of, the slice [1:-2] takes the hours a second time where the minutes
    belong, and the minutes are dropped. *)
Theorem parse_date_time_offset_minutes :
  (∀ resource_name,
     ObjectCreator._parse_date_time
       {| Py.strftime_z_gmtime := "+0530"; Py.ResourceName_PATIENT := resource_name |}
       (Py.VStr "2021-03-04 10:15:30.1234")
     = Py.Ok {| Fhir.origval := "2021-03-04T10:15:30.123+05:05" |}) ∧
  (∀ sign h1 h2 m1 m2 resource_name,
     ObjectCreator._parse_date_time
       {| Py.strftime_z_gmtime :=
            String sign (String h1 (String h2 (String m1 (String m2 EmptyString))));
          Py.ResourceName_PATIENT := resource_name |}
       (Py.VStr "2021-03-04 10:15:30.1234")
     = Py.Ok {| Fhir.origval :=
                  "2021-03-04T10:15:30.123" +:+
                  String sign (String h1 (String h2 (String ":"
                    (String h1 (String h2 EmptyString))))) |}).
Proof. split; reflexivity. Qed.

(** C6, as it is worded, fails on a date of the calendar that a
    [Timestamp] does not hold: the first of January 1600 is two, two and
    four digits, dot-separated, and a date, and the call raises
    [ValueError] instead of returning [1600-01-01]. *)
Lemma parse_date_out_of_range :
  Text.is_calendar_text "01" "01" "1600" = true ∧
  ObjectCreator._parse_date (Py.VStr (Text.dmy "01" "01" "1600"))
  = Py.Raise Py.ValueError ∧
  ObjectCreator._parse_date (Py.VStr (Text.dmy "01" "01" "1600"))
  ≠ Py.Ok {| Fhir.origval := Text.iso "01" "01" "1600" |}.
Proof. split; [reflexivity|]. split; [reflexivity|discriminate]. Qed.

(** C6, amended: a text [DD.MM.YYYY] of two, two and four digits that
    denotes a date from 1677-09-22 to 2262-04-11, the dates a [Timestamp]
    holds, is turned into [YYYY-MM-DD] with the same digits; a text that
    the pattern does not match from its first character on fails the
    assertion. *)
Theorem parse_date_normalizes :
  (∀ dd mm yyyy,
     Text.is_date dd mm yyyy = true →
     ObjectCreator._parse_date (Py.VStr (Text.dmy dd mm yyyy))
     = Py.Ok {| Fhir.origval := Text.iso dd mm yyyy |}) ∧
  (∀ s,
     Text.starts_with_date s = false →
     ObjectCreator._parse_date (Py.VStr s) = Py.Raise Py.AssertionError).
Proof.
  split.
  - intros dd mm yyyy Hdate.
    rewrite <- (app_empty_r (Text.dmy dd mm yyyy)). by apply parse_date_tail.
  - apply parse_date_no_match.
Qed.

Lemma parse_date_normalizes_witness :
  (Text.is_date "04" "03" "2021" = true ∧
   ObjectCreator._parse_date (Py.VStr "04.03.2021")
   = Py.Ok {| Fhir.origval := "2021-03-04" |}) ∧
  (Text.starts_with_date "4.3.2021" = false ∧
   ObjectCreator._parse_date (Py.VStr "4.3.2021") = Py.Raise Py.AssertionError).
Proof.
  split; (split; [reflexivity|]).
  - apply (proj1 parse_date_normalizes "04" "03" "2021"). reflexivity.
  - apply (proj2 parse_date_normalizes "4.3.2021"). reflexivity.
Defined.

(** C10, as it is worded, fails on a date of the calendar that a
    [Timestamp] does not hold: the ten characters [31.12.2300] match the
    pattern and denote a date, and with a tail after them the call raises
    [ValueError] instead of returning [2300-12-31]. *)
Lemma parse_date_tail_out_of_range :
  Text.is_calendar_text "31" "12" "2300" = true ∧
  ObjectCreator._parse_date (Py.VStr (Text.dmy "31" "12" "2300" +:+ " tail"))
  = Py.Raise Py.ValueError ∧
  ObjectCreator._parse_date (Py.VStr (Text.dmy "31" "12" "2300" +:+ " tail"))
  ≠ Py.Ok {| Fhir.origval := Text.iso "31" "12" "2300" |}.
Proof. split; [reflexivity|]. split; [reflexivity|discriminate]. Qed.

(** C10, amended: what follows the ten characters of a date from
    1677-09-22 to 2262-04-11, the dates a [Timestamp] holds, is not looked
    at: the call returns the normal form of the date, as it does on the
    ten characters alone. *)
Theorem parse_date_ignores_tail (dd mm yyyy tail : string) :
  Text.is_date dd mm yyyy = true →
  ObjectCreator._parse_date (Py.VStr (Text.dmy dd mm yyyy +:+ tail))
  = Py.Ok {| Fhir.origval := Text.iso dd mm yyyy |} ∧
  ObjectCreator._parse_date (Py.VStr (Text.dmy dd mm yyyy +:+ tail))
  = ObjectCreator._parse_date (Py.VStr (Text.dmy dd mm yyyy)).
Proof.
  intros Hdate. split; [by apply parse_date_tail|].
  rewrite <- (app_empty_r (Text.dmy dd mm yyyy)) at 2.
  by rewrite !parse_date_tail.
Qed.

Lemma parse_date_ignores_tail_witness :
  Text.is_date "04" "03" "2021" = true ∧
  ObjectCreator._parse_date (Py.VStr "04.03.2021T10:15 and more")
  = Py.Ok {| Fhir.origval := "2021-03-04" |} ∧
  ObjectCreator._parse_date (Py.VStr "04.03.2021T10:15 and more")
  = ObjectCreator._parse_date (Py.VStr "04.03.2021").
Proof.
  split; [reflexivity|].
  apply (parse_date_ignores_tail "04" "03" "2021" "T10:15 and more"). reflexivity.
Defined.

(* ====================================================================== *)
(** ** Further properties: the two parsers                                 *)
(* ====================================================================== *)

Section parse_date_outcomes.
Implicit Types (dd mm yyyy tail s : string).

(** On digit fields the outcome is decided by [pd.Timestamp] alone. *)
Lemma parse_date_digits dd mm yyyy tail :
  Text.is_digits 2 dd = true → Text.is_digits 2 mm = true →
  Text.is_digits 4 yyyy = true →
  ObjectCreator._parse_date (Py.VStr (Text.dmy dd mm yyyy +:+ tail))
  = if Text.is_date dd mm yyyy
    then Py.Ok {| Fhir.origval := Text.iso dd mm yyyy |}
    else Py.Raise Py.ValueError.
Proof.
  intros Hd Hm Hy. destruct (Text.is_date dd mm yyyy) eqn:Hdate.
  { by apply parse_date_tail. }
  unfold Text.is_date in Hdate. rewrite Hd, Hm, Hy in Hdate. cbn [andb] in Hdate.
  unfold ObjectCreator._parse_date. py_step. rewrite match_date by done.
  set (m := [("day", dd); ("month", mm); ("year", yyyy)]).
  assert (Re.group m "day" = Py.Ok dd) as -> by reflexivity.
  assert (Re.group m "month" = Py.Ok mm) as -> by reflexivity.
  assert (Re.group m "year" = Py.Ok yyyy) as -> by reflexivity.
  py_step.
  rewrite (int_digits _ _ Hd), (int_digits _ _ Hm), (int_digits _ _ Hy).
  py_step. unfold Pd.Timestamp_new. by rewrite Hdate.
Qed.

End parse_date_outcomes.

(** the values on which [_parse_date] returns *)
Lemma parse_date_Ok (v : Py.value) (d : Fhir.FHIRDate) :
  ObjectCreator._parse_date v = Py.Ok d ↔
  ∃ dd mm yyyy tail,
    v = Py.VStr (Text.dmy dd mm yyyy +:+ tail) ∧
    Text.is_date dd mm yyyy = true ∧
    d = {| Fhir.origval := Text.iso dd mm yyyy |}.
Proof.
  split.
  - destruct v as [s|z]; [|done].
    destruct (Re.match_ ObjectCreator.DATE_PATTERN s) as [m|] eqn:Hm.
    + apply match_date_Some in Hm as (dd & mm & yyyy & tail & Hd & Hmm & Hy & ->).
      rewrite parse_date_digits by done.
      destruct (Text.is_date dd mm yyyy) eqn:Hdate; [|done].
      intros [= <-]. by exists dd, mm, yyyy, tail.
    + unfold ObjectCreator._parse_date. py_step. by rewrite Hm.
  - intros (dd & mm & yyyy & tail & -> & Hdate & ->). by apply parse_date_tail.
Qed.

(** X1: [_parse_date] returns on the texts that begin with a date, and on
    no other value: two, two and four digits, dot-separated, that denote a
    date which [pd.Timestamp] holds, followed by any tail; what it returns
    is the normal form of that date, ten characters long. *)
Theorem parse_date_Ok_iff (v : Py.value) (d : Fhir.FHIRDate) :
  (ObjectCreator._parse_date v = Py.Ok d ↔
   ∃ dd mm yyyy tail,
     v = Py.VStr (Text.dmy dd mm yyyy +:+ tail) ∧
     Text.is_date dd mm yyyy = true ∧
     d = {| Fhir.origval := Text.iso dd mm yyyy |}) ∧
  (ObjectCreator._parse_date v = Py.Ok d → String.length (Fhir.origval d) = 10%nat).
Proof.
  split; [apply parse_date_Ok|].
  intros (dd & mm & yyyy & tail & _ & Hdate & ->)%parse_date_Ok.
  unfold Text.is_date, Text.is_digits in Hdate.
  repeat match goal with
         | H : _ && _ = true |- _ => apply andb_true_iff in H as [? ?]
         end.
  repeat match goal with
         | H : bool_decide _ = true |- _ => apply bool_decide_eq_true in H
         end.
  cbn [Fhir.origval]. unfold Text.iso. rewrite !length_app. simpl. lia.
Qed.

(** X2: digit fields in the places of day, month and year that do not
    denote a date which [pd.Timestamp] holds (a thirty-first of February, a
    month 13, a year 1500) pass the assertion and raise [ValueError],
    whatever follows them. *)
Theorem parse_date_not_a_date (dd mm yyyy tail : string) :
  Text.is_digits 2 dd = true → Text.is_digits 2 mm = true →
  Text.is_digits 4 yyyy = true →
  Text.is_date dd mm yyyy = false →
  ObjectCreator._parse_date (Py.VStr (Text.dmy dd mm yyyy +:+ tail))
  = Py.Raise Py.ValueError.
Proof. intros Hd Hm Hy Hdate. by rewrite parse_date_digits, Hdate. Qed.

Lemma parse_date_not_a_date_witness :
  Text.is_digits 2 "31" = true ∧ Text.is_digits 2 "02" = true ∧
  Text.is_digits 4 "2021" = true ∧ Text.is_date "31" "02" "2021" = false ∧
  ObjectCreator._parse_date (Py.VStr "31.02.2021 08:00") = Py.Raise Py.ValueError.
Proof.
  split; [reflexivity|]. split; [reflexivity|]. split; [reflexivity|].
  split; [reflexivity|].
  apply (parse_date_not_a_date "31" "02" "2021" " 08:00"); reflexivity.
Defined.

Section parse_date_time_outcomes.
Implicit Types (s t date time frac tail : string) (c : ascii) (w : Py.World).

Lemma slice_first3 s : Py.slice None (Some 3) s = Text.first3 s.
Proof.
  destruct s as [|a [|b [|c s]]]; try reflexivity. apply slice_first_three.
Qed.

Lemma split_unfold c s :
  Py.split c s
  = Text.before c s :: match Text.after c s with
                       | Some rest => Py.split c rest
                       | None => []
                       end.
Proof.
  induction s as [|c' s IH]; [done|]. simpl.
  destruct (decide (c' = c)); [done|]. by rewrite IH.
Qed.

Lemma after_None c s : Text.has c s = false → Text.after c s = None.
Proof.
  induction s as [|c' s IH]; [done|]. simpl.
  intros [Hc Hs]%orb_false_iff. apply bool_decide_eq_false in Hc.
  rewrite decide_False by done. by apply IH.
Qed.

Lemma after_Some c s : Text.has c s = true → is_Some (Text.after c s).
Proof.
  induction s as [|c' s IH]; [done|]. simpl.
  destruct (decide (c' = c)); [by eexists|].
  rewrite bool_decide_eq_false_2 by done. apply IH.
Qed.

Lemma before_all c s : Text.has c s = false → Text.before c s = s.
Proof.
  induction s as [|c' s IH]; [done|]. simpl.
  intros [Hc Hs]%orb_false_iff. apply bool_decide_eq_false in Hc.
  rewrite decide_False by done. by rewrite IH.
Qed.

Lemma before_app c s t :
  Text.has c s = false → Text.before c (s +:+ String c t) = s.
Proof.
  induction s as [|c' s IH]; simpl.
  - intros _. rewrite ?app_empty_l. simpl. by rewrite decide_True.
  - intros [Hc Hs]%orb_false_iff. apply bool_decide_eq_false in Hc.
    rewrite ?app_cons. simpl. rewrite decide_False by done. by rewrite IH.
Qed.

Lemma after_app c s t :
  Text.has c s = false → Text.after c (s +:+ String c t) = Some t.
Proof.
  induction s as [|c' s IH]; simpl.
  - intros _. rewrite ?app_empty_l. simpl. by rewrite decide_True.
  - intros [Hc Hs]%orb_false_iff. apply bool_decide_eq_false in Hc.
    rewrite ?app_cons. simpl. rewrite decide_False by done. by apply IH.
Qed.

Lemma has_app c s t : Text.has c (s +:+ t) = Text.has c s || Text.has c t.
Proof.
  induction s as [|c' s IH]; [done|].
  rewrite app_cons. simpl. by rewrite IH, orb_assoc.
Qed.

(** The call in terms of first occurrences: the date is what precedes
    the first space; the text between the first and the second space is
    cut at its first dot into the time and, up to a second dot, the
    fraction. *)
Lemma parse_date_time_eval w v :
  ObjectCreator._parse_date_time w v
  = match Text.after " " (Py.str v) with
    | None => Py.Raise Py.IndexError
    | Some rest =>
        let t := Text.before " " rest in
        match Text.after "." t with
        | None => Py.Raise Py.IndexError
        | Some f =>
            Py.Ok {| Fhir.origval :=
                       Text.before " " (Py.str v) +:+ "T" +:+ Text.before "." t +:+ "." +:+
                       Text.first3 (Text.before "." f) +:+ Text.case_tz w |}
        end
    end.
Proof.
  unfold ObjectCreator._parse_date_time.
  rewrite (split_unfold " " (Py.str v)).
  destruct (Text.after " " (Py.str v)) as [rest|]; [|done].
  rewrite (split_unfold " " rest).
  cbn [Py.index lookup list_lookup]. py_step.
  rewrite (split_unfold "." (Text.before " " rest)).
  destruct (Text.after "." (Text.before " " rest)) as [f|]; [|done].
  rewrite (split_unfold "." f).
  cbn [Py.index lookup list_lookup]. py_step.
  by rewrite slice_first3.
Qed.

(** the decimal text of an integer holds no space *)
Lemma str_int_no_space z : Text.has " " (Py.str (Py.VInt z)) = false.
Proof.
  assert (∀ d, Text.has " " (NilEmpty.string_of_uint d) = false) as Huint.
  { induction d; simpl; done. }
  unfold Py.str, NilZero.string_of_int, NilZero.string_of_uint.
  destruct (Z.to_int z) as [d|d]; destruct d; simpl; try done; apply Huint.
Qed.

End parse_date_time_outcomes.

(** X3: on a text made of a date, a space, a time, a dot and a fraction,
    none of them checked for digits, the call returns the date, [T], the
    time, a dot, the fraction cut after three characters, and the suffix;
    a fraction of fewer than three characters is kept as it is, without
    padding. *)
Theorem parse_date_time_fraction (w : Py.World) (date time frac : string) :
  Text.has " " date = false →
  Text.has " " time = false → Text.has "." time = false →
  Text.has " " frac = false → Text.has "." frac = false →
  ObjectCreator._parse_date_time w (Py.VStr (date +:+ " " +:+ time +:+ "." +:+ frac))
  = Py.Ok {| Fhir.origval :=
               date +:+ "T" +:+ time +:+ "." +:+ Text.first3 frac +:+ Text.case_tz w |}.
Proof.
  intros Hdate Htime Htime' Hfrac Hfrac'.
  rewrite parse_date_time_eval. cbn [Py.str].
  change (" " +:+ time +:+ "." +:+ frac) with (String " " (time +:+ "." +:+ frac)).
  rewrite (after_app _ _ _ Hdate), (before_app _ _ _ Hdate). cbn zeta.
  assert (Text.has " " (time +:+ "." +:+ frac) = false) as Hrest.
  { rewrite !has_app, Htime, Hfrac. reflexivity. }
  rewrite (before_all _ _ Hrest).
  change ("." +:+ frac) with (String "." frac).
  rewrite (after_app _ _ _ Htime'), (before_app _ _ _ Htime').
  by rewrite (before_all _ _ Hfrac').
Qed.

Lemma parse_date_time_fraction_witness :
  Text.has " " "2021-03-04" = false ∧
  Text.has " " "10:15:30" = false ∧ Text.has "." "10:15:30" = false ∧
  Text.has " " "1" = false ∧ Text.has "." "1" = false ∧
  ObjectCreator._parse_date_time Sample.world_utc (Py.VStr "2021-03-04 10:15:30.1")
  = Py.Ok {| Fhir.origval := "2021-03-04T10:15:30.1+00:00" |}.
Proof.
  split; [reflexivity|]. split; [reflexivity|]. split; [reflexivity|].
  split; [reflexivity|]. split; [reflexivity|].
  apply (parse_date_time_fraction Sample.world_utc "2021-03-04" "10:15:30" "1");
    reflexivity.
Defined.

(** X4: what follows a second space is dropped, and so is what follows a
    second dot: with such a tail the call returns what it returns without
    it. *)
Theorem parse_date_time_drops_tail (w : Py.World) (date time frac tail : string) :
  Text.has " " date = false →
  Text.has " " time = false → Text.has "." time = false →
  Text.has " " frac = false → Text.has "." frac = false →
  ObjectCreator._parse_date_time w
    (Py.VStr (date +:+ " " +:+ time +:+ "." +:+ frac +:+ " " +:+ tail))
  = ObjectCreator._parse_date_time w (Py.VStr (date +:+ " " +:+ time +:+ "." +:+ frac)) ∧
  (Text.has " " tail = false →
   ObjectCreator._parse_date_time w
     (Py.VStr (date +:+ " " +:+ time +:+ "." +:+ frac +:+ "." +:+ tail))
   = ObjectCreator._parse_date_time w (Py.VStr (date +:+ " " +:+ time +:+ "." +:+ frac))).
Proof.
  intros Hdate Htime Htime' Hfrac Hfrac'.
  rewrite (parse_date_time_fraction w date time frac) by done.
  assert (Text.has " " (time +:+ "." +:+ frac) = false) as Hrest.
  { rewrite !has_app, Htime, Hfrac. reflexivity. }
  split.
  - rewrite parse_date_time_eval. cbn [Py.str].
    change (" " +:+ time +:+ "." +:+ frac +:+ " " +:+ tail)
      with (String " " (time +:+ "." +:+ frac +:+ String " " tail)).
    rewrite (after_app _ _ _ Hdate), (before_app _ _ _ Hdate). cbn zeta.
    replace (time +:+ "." +:+ frac +:+ String " " tail)
      with ((time +:+ "." +:+ frac) +:+ String " " tail) by by rewrite !app_assoc'.
    rewrite (before_app _ _ _ Hrest).
    change ("." +:+ frac) with (String "." frac).
    rewrite (after_app _ _ _ Htime'), (before_app _ _ _ Htime').
    by rewrite (before_all _ _ Hfrac').
  - intros Htail. rewrite parse_date_time_eval. cbn [Py.str].
    change (" " +:+ time +:+ "." +:+ frac +:+ "." +:+ tail)
      with (String " " (time +:+ String "." (frac +:+ String "." tail))).
    rewrite (after_app _ _ _ Hdate), (before_app _ _ _ Hdate). cbn zeta.
    rewrite before_all.
    2:{ rewrite has_app, Htime. simpl. rewrite has_app, Hfrac. simpl. done. }
    rewrite (after_app _ _ _ Htime'), (before_app _ _ _ Htime').
    by rewrite (before_app _ _ _ Hfrac').
Qed.

Lemma parse_date_time_drops_tail_witness :
  Text.has " " "2021-03-04" = false ∧
  Text.has " " "10:15:30" = false ∧ Text.has "." "10:15:30" = false ∧
  Text.has " " "1234" = false ∧ Text.has "." "1234" = false ∧
  ObjectCreator._parse_date_time Sample.world_utc
    (Py.VStr "2021-03-04 10:15:30.1234 Europe/Berlin")
  = ObjectCreator._parse_date_time Sample.world_utc (Py.VStr "2021-03-04 10:15:30.1234") ∧
  (Text.has " " "5678" = false →
   ObjectCreator._parse_date_time Sample.world_utc (Py.VStr "2021-03-04 10:15:30.1234.5678")
   = ObjectCreator._parse_date_time Sample.world_utc (Py.VStr "2021-03-04 10:15:30.1234")).
Proof.
  split; [reflexivity|]. split; [reflexivity|]. split; [reflexivity|].
  split; [reflexivity|]. split; [reflexivity|].
  split.
  - apply (parse_date_time_drops_tail Sample.world_utc "2021-03-04" "10:15:30" "1234"
             "Europe/Berlin"); reflexivity.
  - apply (parse_date_time_drops_tail Sample.world_utc "2021-03-04" "10:15:30" "1234"
             "5678"); reflexivity.
Defined.

(** X5: [_parse_date_time] returns exactly when the text has a space and
    the part between the first and the second space has a dot; in every
    other case it raises [IndexError], and it raises nothing else. *)
Theorem parse_date_time_returns_iff (w : Py.World) (v : Py.value) :
  (Py.is_ok (ObjectCreator._parse_date_time w v) = true ↔
   ∃ rest, Text.after " " (Py.str v) = Some rest ∧
           Text.has "." (Text.before " " rest) = true) ∧
  (∀ e, ObjectCreator._parse_date_time w v = Py.Raise e → e = Py.IndexError).
Proof.
  rewrite parse_date_time_eval.
  destruct (Text.after " " (Py.str v)) as [rest|]; cbn zeta.
  - destruct (Text.has "." (Text.before " " rest)) eqn:Hdot.
    + destruct (after_Some _ _ Hdot) as [f ->]. split; [|done].
      split; [by exists rest|done].
    + rewrite (after_None _ _ Hdot). split; [|by intros e [= <-]].
      split; [done|]. intros (rest' & [= <-] & Hdot'). congruence.
  - split; [|by intros e [= <-]]. split; [done|]. by intros (rest & ? & _).
Qed.

(** X6: a cell that holds a number makes [_parse_date_time] raise
    [IndexError]: the decimal text of the number has no space. *)
Theorem parse_date_time_int (w : Py.World) (z : Z) :
  ObjectCreator._parse_date_time w (Py.VInt z) = Py.Raise Py.IndexError.
Proof. apply parse_date_time_no_space, str_int_no_space. Qed.

(* ====================================================================== *)
(** ** Further properties: references and gender codes                     *)
(* ====================================================================== *)

(** X7: a reference can be taken apart again: when the value of the
    resource name holds no slash, splitting the reference text at the
    slashes gives that value first, followed by the pieces of the id; when
    the id holds no slash either, these are the resource type and the
    id. *)
Theorem construct_reference_split (resource_name : Py.EnumMember) (ref_id : Py.value) :
  Text.has "/" (Py.member_value resource_name) = false →
  Py.split "/"
    (Fhir.reference_reference (ObjectCreator._construct_reference resource_name ref_id))
  = Py.member_value resource_name :: Py.split "/" (Py.str ref_id) ∧
  (Text.has "/" (Py.str ref_id) = false →
   Py.split "/"
     (Fhir.reference_reference (ObjectCreator._construct_reference resource_name ref_id))
   = [Fhir.reference_type (ObjectCreator._construct_reference resource_name ref_id);
      Py.str ref_id]).
Proof.
  intros Hname. cbn [ObjectCreator._construct_reference Fhir.reference_reference
                       Fhir.reference_type].
  change ("/" +:+ Py.str ref_id) with (String "/" (Py.str ref_id)).
  rewrite (split_app _ _ _ Hname). split; [done|].
  intros Hid. by rewrite (split_no_sep _ _ Hid).
Qed.

Lemma construct_reference_split_witness :
  Text.has "/" (Py.member_value Sample.Patient) = false ∧
  Py.split "/"
    (Fhir.reference_reference (ObjectCreator._construct_reference Sample.Patient (Py.VInt 17)))
  = ["Patient"; "17"].
Proof.
  split; [reflexivity|].
  apply (construct_reference_split Sample.Patient (Py.VInt 17)); reflexivity.
Defined.

(** X8: two references are equal exactly when the resource names have the
    same value and the ids the same text; a number and its decimal text
    are not told apart. *)
Theorem construct_reference_eq_iff
    (name1 name2 : Py.EnumMember) (id1 id2 : Py.value) :
  ObjectCreator._construct_reference name1 id1
  = ObjectCreator._construct_reference name2 id2 ↔
  Py.member_value name1 = Py.member_value name2 ∧ Py.str id1 = Py.str id2.
Proof.
  unfold ObjectCreator._construct_reference. split.
  - intros [= Htype Href]. split; [done|].
    rewrite Htype in Href. apply (inj (String.app _)) in Href.
    by injection Href.
  - by intros [-> ->].
Qed.

(** X9: [_map_gender] returns for the three codes [m], [f] and [w] as text
    and for nothing else, capital letters and numbers included: [male]
    for [m], [female] for [f] and for [w]. *)
Theorem map_gender_Ok_iff (gender : Py.value) (name : string) :
  ObjectCreator._map_gender gender = Py.Ok name ↔
  (gender = Py.VStr "m" ∧ name = "male") ∨
  ((gender = Py.VStr "f" ∨ gender = Py.VStr "w") ∧ name = "female").
Proof.
  unfold ObjectCreator._map_gender.
  destruct (bool_decide_reflect (gender = Py.VStr "m")) as [->|Hm].
  { split; [intros [= <-]; by left|]. intros [[_ ->]|[[?|?] _]]; done. }
  destruct (bool_decide_reflect (gender = Py.VStr "f")) as [->|Hf].
  { split; [intros [= <-]; right; by split; [left|]|].
    intros [[? _]|[_ ->]]; done. }
  destruct (bool_decide_reflect (gender = Py.VStr "w")) as [->|Hw].
  { split; [intros [= <-]; right; by split; [right|]|].
    intros [[? _]|[_ ->]]; done. }
  split; [done|]. intros [[? _]|[[?|?] _]]; done.
Qed.

Lemma map_gender_unknown (gender : Py.value) :
  gender ≠ Py.VStr "m" → gender ≠ Py.VStr "f" → gender ≠ Py.VStr "w" →
  ObjectCreator._map_gender gender
  = Py.Raise (Py.Exception ("Unknown gender code " +:+ Py.str gender)).
Proof.
  intros Hm Hf Hw. unfold ObjectCreator._map_gender.
  by rewrite !bool_decide_eq_false_2 by done.
Qed.

(* ====================================================================== *)
(** ** Further properties: the builders                                    *)
(* ====================================================================== *)

Section inversion.
Context {A B : Type}.
Implicit Types (r : Py.result A) (k : A → Py.result B).

Lemma bind_Ok r k b :
  r ≫= k = Py.Ok b ↔ ∃ a, r = Py.Ok a ∧ k a = Py.Ok b.
Proof.
  destruct r as [a|e]; py_step.
  - split; [by exists a|]. by intros (a' & [= <-] & ?).
  - split; [done|]. by intros (a' & ? & _).
Qed.

Lemma bind_Raise r k e :
  r = Py.Raise e → r ≫= k = Py.Raise e.
Proof. by intros ->. Qed.

End inversion.

Lemma getattr_Ok (row : Pd.Series) (name : string) (v : Py.value) :
  Pd.getattr row name = Py.Ok v ↔ row !! name = Some v.
Proof.
  unfold Pd.getattr. destruct (row !! name); split; by intros [= <-].
Qed.

Lemma assert_Ok (c : bool) (u : unit) : Py.assert c = Py.Ok u ↔ c = true.
Proof. destruct c, u; by split. Qed.

Lemma ResourceName_PATIENT_Ok (w : Py.World) (patient : Py.EnumMember) :
  ObjectCreator.ResourceName_PATIENT w = Py.Ok patient ↔
  Py.ResourceName_PATIENT w = Some patient.
Proof.
  unfold ObjectCreator.ResourceName_PATIENT.
  destruct (Py.ResourceName_PATIENT w); split; by intros [= <-].
Qed.

Lemma is_ok_Ok {A} (r : Py.result A) : Py.is_ok r = true ↔ ∃ a, r = Py.Ok a.
Proof. destruct r as [a|e]; split; try done; [by exists a|by intros [? ?]]. Qed.

(** take a returning call apart, statement by statement *)
Ltac py_inv :=
  repeat match goal with
         | H : _ ≫= _ = Py.Ok _ |- _ => apply bind_Ok in H as (? & ? & ?)
         | H : Pd.getattr _ _ = Py.Ok _ |- _ => apply getattr_Ok in H
         | H : Py.assert _ = Py.Ok _ |- _ => apply assert_Ok, bool_decide_eq_true in H
         | H : ObjectCreator.ResourceName_PATIENT _ = Py.Ok _ |- _ =>
             apply ResourceName_PATIENT_Ok in H
         end.

(** run a call on a row whose columns are known *)
Ltac py_run :=
  repeat first
    [ progress py_step
    | match goal with
      | H : ?row !! ?name = Some _ |- context [Pd.getattr ?row ?name] =>
          rewrite (proj2 (getattr_Ok row name _) H)
      | H : Py.ResourceName_PATIENT ?w = Some _
        |- context [ObjectCreator.ResourceName_PATIENT ?w] =>
          rewrite (proj2 (ResourceName_PATIENT_Ok w _) H)
      end ].

(** X10: [create_patient] returns exactly on the rows that hold the
    columns [first_name], [last_name], [street], [zip], [city] and [id], a
    [sex] that [_map_gender] knows, and a [date_of_birth] that begins with
    a date; the patient it returns has one identifier, one name, one
    address with the text of the zip as postal code, the mapped gender,
    and the date of birth in normal form. *)
Theorem create_patient_Ok_iff (row : Pd.Series) (p : Fhir.Patient) :
  ObjectCreator.create_patient row = Py.Ok p ↔
  ∃ first_name last_name street zip city id sex gender dd mm yyyy tail,
    row !! "first_name" = Some first_name ∧ row !! "last_name" = Some last_name ∧
    row !! "street" = Some street ∧ row !! "zip" = Some zip ∧
    row !! "city" = Some city ∧ row !! "id" = Some id ∧
    row !! "sex" = Some sex ∧ ObjectCreator._map_gender sex = Py.Ok gender ∧
    row !! "date_of_birth" = Some (Py.VStr (Text.dmy dd mm yyyy +:+ tail)) ∧
    Text.is_date dd mm yyyy = true ∧
    p = Text.patient_of first_name last_name street zip city id gender
          (Text.iso dd mm yyyy).
Proof.
  unfold ObjectCreator.create_patient. split.
  - intros H. py_inv.
    match goal with
    | Hd : ObjectCreator._parse_date _ = Py.Ok _ |- _ =>
        apply parse_date_Ok in Hd as (dd & mm & yyyy & tail & -> & Hdate & ->)
    end.
    match goal with Hp : mret _ = Py.Ok p |- _ => injection Hp as <- end.
    by repeat eexists.
  - intros (first_name & last_name & street & zip & city & id & sex & gender &
            dd & mm & yyyy & tail & ? & ? & ? & ? & ? & ? & ? & Hg & ? & Hdate & ->).
    py_run. rewrite Hg. py_run. rewrite (parse_date_tail _ _ _ _ Hdate). reflexivity.
Qed.

(** X11: an unknown gender code is reported before the date of birth is
    looked at: on a row with its six other columns and a [sex] outside
    [m], [f] and [w], [create_patient] raises the exception that names the
    code, whether the row has a well-formed [date_of_birth], a malformed
    one, or none. *)
Theorem create_patient_unknown_gender (row : Pd.Series) (sex : Py.value) :
  is_Some (row !! "first_name") → is_Some (row !! "last_name") →
  is_Some (row !! "street") → is_Some (row !! "zip") →
  is_Some (row !! "city") → is_Some (row !! "id") →
  row !! "sex" = Some sex →
  sex ≠ Py.VStr "m" → sex ≠ Py.VStr "f" → sex ≠ Py.VStr "w" →
  ObjectCreator.create_patient row
  = Py.Raise (Py.Exception ("Unknown gender code " +:+ Py.str sex)).
Proof.
  intros [? ?] [? ?] [? ?] [? ?] [? ?] [? ?] ? Hm Hf Hw.
  unfold ObjectCreator.create_patient. py_run.
  by rewrite (map_gender_unknown _ Hm Hf Hw).
Qed.

Lemma create_patient_unknown_gender_witness :
  Sample.patient_row_unknown_sex !! "sex" = Some (Py.VStr "d") ∧
  Sample.patient_row_unknown_sex !! "date_of_birth" = None ∧
  ObjectCreator.create_patient Sample.patient_row_unknown_sex
  = Py.Raise (Py.Exception "Unknown gender code d").
Proof.
  split; [reflexivity|]. split; [reflexivity|].
  apply (create_patient_unknown_gender Sample.patient_row_unknown_sex (Py.VStr "d"));
    try (by eexists); done.
Defined.

(** when [create_procedure] returns *)
Lemma create_procedure_Ok (w : Py.World) (row : Pd.Series) (sid : Py.value)
    (p : Fhir.Procedure) :
  ObjectCreator.create_procedure w row sid = Py.Ok p ↔
  row !! "code_system" = Some (Py.VStr "OPS") ∧
  row !! "code_version" = Some (Py.VStr "2020") ∧
  ∃ code id patient,
    row !! "code" = Some code ∧ row !! "id" = Some id ∧
    Py.ResourceName_PATIENT w = Some patient ∧
    p = Text.procedure_of id code patient sid.
Proof.
  unfold ObjectCreator.create_procedure. split.
  - intros H. py_inv. subst.
    match goal with Hp : mret _ = Py.Ok p |- _ => injection Hp as <- end.
    do 2 (split; [done|]). by repeat eexists.
  - intros (? & ? & code & id & patient & ? & ? & ? & ->). by py_run.
Qed.

(** when [create_encounter] returns *)
Lemma create_encounter_Ok (w : Py.World) (row : Pd.Series) (sid : Py.value)
    (e : Fhir.Encounter) :
  ObjectCreator.create_encounter w row sid = Py.Ok e ↔
  ∃ admission discharge id patient start end_,
    row !! "admission" = Some admission ∧ row !! "discharge" = Some discharge ∧
    row !! "id" = Some id ∧ Py.ResourceName_PATIENT w = Some patient ∧
    ObjectCreator._parse_date_time w admission = Py.Ok start ∧
    ObjectCreator._parse_date_time w discharge = Py.Ok end_ ∧
    e = Text.encounter_of id start end_ patient sid.
Proof.
  unfold ObjectCreator.create_encounter. split.
  - intros H. py_inv.
    match goal with He : mret _ = Py.Ok e |- _ => injection He as <- end.
    by repeat eexists.
  - intros (admission & discharge & id & patient & start & end_ &
            ? & ? & ? & ? & Hs & He & ->).
    py_run. rewrite Hs. py_run. rewrite He. by py_run.
Qed.

(** X12: [create_procedure] returns exactly on the rows whose
    [code_system] is the text [OPS] and whose [code_version] is the text
    [2020], that hold [code] and [id], in a world where [ResourceName] is
    bound; the procedure has the status [completed], a subject reference
    to the patient, one coding under the OPS system in version [2020] with
    the code of the row and no display, and no encounter reference. *)
Theorem create_procedure_Ok_iff (w : Py.World) (row : Pd.Series) (sid : Py.value)
    (p : Fhir.Procedure) :
  ObjectCreator.create_procedure w row sid = Py.Ok p ↔
  row !! "code_system" = Some (Py.VStr "OPS") ∧
  row !! "code_version" = Some (Py.VStr "2020") ∧
  ∃ code id patient,
    row !! "code" = Some code ∧ row !! "id" = Some id ∧
    Py.ResourceName_PATIENT w = Some patient ∧
    p = {| Fhir.procedure_identifier := [ {| Fhir.identifier_value := id |} ];
           Fhir.procedure_status := "completed";
           Fhir.procedure_subject :=
             {| Fhir.reference_type := Py.member_value patient;
                Fhir.reference_reference := Py.member_value patient +:+ "/" +:+ Py.str sid |};
           Fhir.procedure_encounter := None;
           Fhir.procedure_code :=
             {| Fhir.concept_coding :=
                  [ {| Fhir.coding_system := "http://fhir.de/CodeSystem/dimdi/ops";
                       Fhir.coding_version := "2020";
                       Fhir.coding_code := code;
                       Fhir.coding_display := None |} ] |} |}.
Proof. apply create_procedure_Ok. Qed.

(** X13: the two assertions of [create_procedure] come first and do not
    depend on the world: a [code_system] other than the text [OPS] raises
    [AssertionError], and so does, under [OPS], a [code_version] other
    than the text [2020], the number 2020 included. *)
Theorem create_procedure_assertions (w : Py.World) (row : Pd.Series) (sid v : Py.value) :
  (row !! "code_system" = Some v → v ≠ Py.VStr "OPS" →
   ObjectCreator.create_procedure w row sid = Py.Raise Py.AssertionError) ∧
  (row !! "code_system" = Some (Py.VStr "OPS") →
   row !! "code_version" = Some v → v ≠ Py.VStr "2020" →
   ObjectCreator.create_procedure w row sid = Py.Raise Py.AssertionError).
Proof.
  unfold ObjectCreator.create_procedure. split.
  - intros ? Hv. py_run. by rewrite bool_decide_eq_false_2.
  - intros ? ? Hv. py_run.
    by rewrite (bool_decide_eq_false_2 (v = Py.VStr "2020")) by done.
Qed.

Lemma create_procedure_assertions_witness :
  Sample.procedure_row_int_version !! "code_system" = Some (Py.VStr "OPS") ∧
  Sample.procedure_row_int_version !! "code_version" = Some (Py.VInt 2020) ∧
  Py.VInt 2020 ≠ Py.VStr "2020" ∧
  ObjectCreator.create_procedure Sample.world_utc Sample.procedure_row_int_version
    (Py.VStr "17") = Py.Raise Py.AssertionError.
Proof.
  split; [reflexivity|]. split; [reflexivity|]. split; [discriminate|].
  apply (proj2 (create_procedure_assertions Sample.world_utc
                  Sample.procedure_row_int_version (Py.VStr "17") (Py.VInt 2020)));
    [reflexivity|reflexivity|discriminate].
Defined.

(** X14: where the global [ResourceName] is unbound, as it is when the
    module is loaded with [TYPE_CHECKING] false and nothing binds the name
    afterwards, [create_encounter], [create_condition] and
    [create_procedure] return on no row. *)
Theorem builders_need_ResourceName (w : Py.World) (row : Pd.Series) (sid eid : Py.value) :
  Py.ResourceName_PATIENT w = None →
  Py.is_ok (ObjectCreator.create_encounter w row sid) = false ∧
  Py.is_ok (ObjectCreator.create_condition w row sid eid) = false ∧
  Py.is_ok (ObjectCreator.create_procedure w row sid) = false.
Proof.
  intros Hw. repeat split; apply not_true_is_false; intros [c Hc]%is_ok_Ok.
  - apply create_encounter_Ok in Hc as (? & ? & ? & ? & ? & ? & _ & _ & _ & ? & _).
    congruence.
  - apply create_condition_Ok in Hc as (_ & _ & ? & ? & ? & _ & _ & ? & _). congruence.
  - apply create_procedure_Ok in Hc as (_ & _ & ? & ? & ? & _ & _ & ? & _). congruence.
Qed.

Lemma builders_need_ResourceName_witness :
  Py.ResourceName_PATIENT Sample.world_unbound = None ∧
  Py.is_ok (ObjectCreator.create_encounter Sample.world_unbound Sample.case_row
              (Py.VStr "17")) = false ∧
  Py.is_ok (ObjectCreator.create_condition Sample.world_unbound Sample.diagnose_row_sytem
              (Py.VStr "17") (Py.VStr "3")) = false ∧
  Py.is_ok (ObjectCreator.create_procedure Sample.world_unbound Sample.procedure_row
              (Py.VStr "17")) = false.
Proof.
  split; [reflexivity|]. split; [|split].
  - apply (builders_need_ResourceName Sample.world_unbound Sample.case_row
             (Py.VStr "17") (Py.VStr "3")). reflexivity.
  - apply (builders_need_ResourceName Sample.world_unbound Sample.diagnose_row_sytem
             (Py.VStr "17") (Py.VStr "3")). reflexivity.
  - apply (builders_need_ResourceName Sample.world_unbound Sample.procedure_row
             (Py.VStr "17") (Py.VStr "3")). reflexivity.
Defined.

(** X15: [create_encounter] returns exactly when the row holds
    [admission], [discharge] and [id], both date-times parse, and
    [ResourceName] is bound; the encounter then has the status [finished],
    the resource type [Encounter], the two parsed date-times as its period
    and a subject reference to the patient. *)
Theorem create_encounter_Ok_iff (w : Py.World) (row : Pd.Series) (sid : Py.value)
    (e : Fhir.Encounter) :
  ObjectCreator.create_encounter w row sid = Py.Ok e ↔
  ∃ admission discharge id patient start end_,
    row !! "admission" = Some admission ∧ row !! "discharge" = Some discharge ∧
    row !! "id" = Some id ∧ Py.ResourceName_PATIENT w = Some patient ∧
    ObjectCreator._parse_date_time w admission = Py.Ok start ∧
    ObjectCreator._parse_date_time w discharge = Py.Ok end_ ∧
    e = {| Fhir.encounter_identifier := [ {| Fhir.identifier_value := id |} ];
           Fhir.encounter_resource_type := "Encounter";
           Fhir.encounter_status := "finished";
           Fhir.encounter_period := {| Fhir.period_start := start; Fhir.period_end := end_ |};
           Fhir.encounter_subject :=
             {| Fhir.reference_type := Py.member_value patient;
                Fhir.reference_reference :=
                  Py.member_value patient +:+ "/" +:+ Py.str sid |} |}.
Proof. apply create_encounter_Ok. Qed.

(** X16: [_resolve_observation_column] returns on no name and logs
    nothing: a name that is not a key of the table raises the exception
    that quotes it, and a key of the table raises [ValueError]. *)
Theorem resolve_observation_column_outcome (column_name : string) (log : list string) :
  ObjectCreator._resolve_observation_column column_name log
  = (Py.Raise
       (if Dict.contains ObjectCreator._observation_loinc_mapping_dict column_name
        then Py.ValueError
        else Py.Exception ("Invalid column name: " +:+ ObjectCreator.quote +:+
                           column_name +:+ ObjectCreator.quote)),
     log).
Proof.
  destruct (Dict.contains ObjectCreator._observation_loinc_mapping_dict column_name)
    eqn:Hin.
  - by apply resolve_observation_column_present.
  - by apply resolve_observation_column_absent.
Qed.

(** X17: a row whose [version] is not the text [2020], the number 2020
    included, never yields a condition, in any world and whatever its
    other columns hold; when the first assertion passes, it is the second
    that fails. *)
Theorem create_condition_version
    (w : Py.World) (row : Pd.Series) (sid eid v : Py.value) :
  row !! "version" = Some v → v ≠ Py.VStr "2020" →
  Py.is_ok (ObjectCreator.create_condition w row sid eid) = false ∧
  (row !! "sytem" = Some (Py.VStr "ICD-10-GM") →
   ObjectCreator.create_condition w row sid eid = Py.Raise Py.AssertionError).
Proof.
  intros Hversion Hv. split.
  - apply not_true_is_false. intros [c Hc]%is_ok_Ok.
    apply create_condition_Ok in Hc as (_ & Hversion' & _). congruence.
  - intros Hsytem. unfold ObjectCreator.create_condition. py_run.
    by rewrite (bool_decide_eq_false_2 (v = Py.VStr "2020")) by done.
Qed.

Lemma create_condition_version_witness :
  Sample.diagnose_row_int_version !! "version" = Some (Py.VInt 2020) ∧
  Py.VInt 2020 ≠ Py.VStr "2020" ∧
  Sample.diagnose_row_int_version !! "sytem" = Some (Py.VStr "ICD-10-GM") ∧
  Py.is_ok (ObjectCreator.create_condition Sample.world_utc Sample.diagnose_row_int_version
              (Py.VStr "17") (Py.VStr "3")) = false ∧
  ObjectCreator.create_condition Sample.world_utc Sample.diagnose_row_int_version
    (Py.VStr "17") (Py.VStr "3") = Py.Raise Py.AssertionError.
Proof.
  split; [reflexivity|]. split; [discriminate|]. split; [reflexivity|].
  destruct (create_condition_version Sample.world_utc Sample.diagnose_row_int_version
              (Py.VStr "17") (Py.VStr "3") (Py.VInt 2020)) as [Hok Hraise];
    [reflexivity|discriminate|].
  split; [exact Hok|]. apply Hraise. reflexivity.
Defined.

(** X18: [create_condition] returns exactly on the rows whose column
    [sytem] is the text [ICD-10-GM] and whose [version] is the text
    [2020], that hold [code] and [id], in a world where [ResourceName] is
    bound; the condition has one identifier, a subject reference to the
    patient, the category [encounter-diagnosis], one coding with the code
    of the row, and no encounter reference, whatever encounter id is
    passed. *)
Theorem create_condition_Ok_iff
    (w : Py.World) (row : Pd.Series) (sid eid : Py.value) (c : Fhir.Condition) :
  ObjectCreator.create_condition w row sid eid = Py.Ok c ↔
  row !! "sytem" = Some (Py.VStr "ICD-10-GM") ∧
  row !! "version" = Some (Py.VStr "2020") ∧
  ∃ code id patient,
    row !! "code" = Some code ∧ row !! "id" = Some id ∧
    Py.ResourceName_PATIENT w = Some patient ∧
    c = {| Fhir.condition_identifier := [ {| Fhir.identifier_value := id |} ];
           Fhir.condition_subject :=
             {| Fhir.reference_type := Py.member_value patient;
                Fhir.reference_reference := Py.member_value patient +:+ "/" +:+ Py.str sid |};
           Fhir.condition_encounter := None;
           Fhir.condition_code :=
             {| Fhir.concept_coding :=
                  [ {| Fhir.coding_system := "http://fhir.de/CodeSystem/dimdi/icd-10-gm";
                       Fhir.coding_version := "2020";
                       Fhir.coding_code := code;
                       Fhir.coding_display := None |} ] |};
           Fhir.condition_category := "encounter-diagnosis" |}.
Proof. apply create_condition_Ok. Qed.
